(** * WebPageTest agent: job acquisition ([internal/webpagetest.py])

    A shallow embedding of the [WebPageTest] controller: its constructor,
    the custom-metric loader and [get_test], the polling protocol against
    the work server.  Effects (HTTP requests, log records, clock readings,
    sleeps, the reboot request) are recorded in a trace; the answers of the
    outside world (what the session's GET does, what the monotonic clock
    shows, what the JSON parser makes of a body, what the metrics directory
    holds) are inputs of the model. *)

From Stdlib Require Import Ascii QArith Lqa.
From stdpp Require Import gmap strings list pretty.

Local Open Scope Z_scope.

(** ** Python values *)

(** What [json.loads] can return.  Python's [None] is the [null] of JSON and
    also the value of a job that is absent.  Numbers keep their lexeme. *)
#[local] Unset Elimination Schemes.
Inductive pyvalue : Type :=
  | PyNone
  | PyBool (b : bool)
  | PyNumber (lexeme : string)
  | PyStr (s : string)
  | PyList (items : list pyvalue)
  | PyDict (items : list (string * pyvalue)).
#[local] Set Elimination Schemes.

(** A job is absent when [get_test] hands back [None]. *)
Definition absent (job : pyvalue) : Prop := job = PyNone.

(** ** The outside world *)

(** The exceptions an attempt can raise, by the [except] clause that
    takes them: [requests.exceptions.RequestException] (whose [response],
    when there is one, carries a status code), every other [Exception],
    with their [str], and the exceptions that are no [Exception]
    ([KeyboardInterrupt], [SystemExit], [GeneratorExit]), which no clause
    of [get_test] takes. *)
Inductive exn : Type :=
  | RequestException (msg : string) (status : option Z)
  | OtherException (msg : string)
  | SystemExiting (name : string).

(** The errors: the exceptions that derive from [Exception]. *)
Definition is_error (e : exn) : bool :=
  match e with
  | SystemExiting _ => false
  | _ => true
  end.

(** What [self.session.get(url, timeout=10, proxies=proxies)] followed by
    [response.text] does: it yields the body or raises. *)
Inductive get_outcome : Type :=
  | Responded (text : string)
  | Raises (e : exn).

(** [json.loads]: the parsed value, or the message of the exception raised. *)
Definition json_parser : Type := string -> pyvalue + string.

(** Answers of the world to one call of [get_test], by attempt number:
    [session_get n url] is the outcome of the GET of attempt [n],
    [monotonic n] the reading of the clock in its failure handler.  Clock
    readings are seconds; a reading is a finite float, kept as the
    rational it denotes. *)
Record World : Type := {
  session_get : Z -> string -> get_outcome;
  monotonic : Z -> Q;
  json_loads : json_parser
}.

(** Observable effects, in program order. *)
Inductive Event : Type :=
  | LogDebug (msg : string)
  | LogInfo (msg : string)
  | LogWarning (msg : string)
  | LogCritical (msg : string)
  | LogException (msg : string)
  | HttpGet (url : string) (timeout : Z) (no_proxy : bool)
  | Monotonic
  | RebootRequest
  | Sleep (seconds : Q).

Definition is_http_get (e : Event) : bool :=
  match e with HttpGet _ _ _ => true | _ => false end.

Definition is_reboot_request (e : Event) : bool :=
  match e with RebootRequest => true | _ => false end.

Definition is_sleep (e : Event) : bool :=
  match e with Sleep _ => true | _ => false end.

Definition is_log_critical (e : Event) : bool :=
  match e with LogCritical _ => true | _ => false end.

(** Number of GET attempts, reboot requests and sleeps a trace holds. *)
Definition attempts (tr : list Event) : nat := length (List.filter is_http_get tr).
Definition reboot_requests (tr : list Event) : nat :=
  length (List.filter is_reboot_request tr).
Definition sleeps (tr : list Event) : nat := length (List.filter is_sleep tr).

(** The URLs requested, in order. *)
Definition requested_urls (tr : list Event) : list string :=
  omap (fun e => match e with HttpGet u _ _ => Some u | _ => None end) tr.

(** ** The controller's state *)

(** The command-line options the constructor and [get_test] read. *)
Record Options : Type := {
  opt_server : option string;
  opt_location : option string;
  opt_scheduler : option string;
  opt_schedulernode : option string;
  opt_pubsub : bool
}.

Record WebPageTest : Type := {
  job : pyvalue;
  raw_job : pyvalue;
  first_failure : option Q;
  is_rebooting : bool;
  is_dead : bool;
  options : Options;
  work_servers : list string;
  url : string;
  test_locations : list string;
  location : string;
  scheduler_nodes : list string;
  custom_metrics : gmap string string
}.

Definition set_raw_job (v : pyvalue) (self : WebPageTest) : WebPageTest :=
  {| job := job self; raw_job := v; first_failure := first_failure self;
     is_rebooting := is_rebooting self; is_dead := is_dead self;
     options := options self; work_servers := work_servers self;
     url := url self; test_locations := test_locations self;
     location := location self; scheduler_nodes := scheduler_nodes self;
     custom_metrics := custom_metrics self |}.

Definition set_first_failure (t : option Q) (self : WebPageTest) : WebPageTest :=
  {| job := job self; raw_job := raw_job self; first_failure := t;
     is_rebooting := is_rebooting self; is_dead := is_dead self;
     options := options self; work_servers := work_servers self;
     url := url self; test_locations := test_locations self;
     location := location self; scheduler_nodes := scheduler_nodes self;
     custom_metrics := custom_metrics self |}.

Definition set_is_rebooting (b : bool) (self : WebPageTest) : WebPageTest :=
  {| job := job self; raw_job := raw_job self;
     first_failure := first_failure self;
     is_rebooting := b; is_dead := is_dead self;
     options := options self; work_servers := work_servers self;
     url := url self; test_locations := test_locations self;
     location := location self; scheduler_nodes := scheduler_nodes self;
     custom_metrics := custom_metrics self |}.

Definition set_is_dead (b : bool) (self : WebPageTest) : WebPageTest :=
  {| job := job self; raw_job := raw_job self;
     first_failure := first_failure self;
     is_rebooting := is_rebooting self; is_dead := b;
     options := options self; work_servers := work_servers self;
     url := url self; test_locations := test_locations self;
     location := location self; scheduler_nodes := scheduler_nodes self;
     custom_metrics := custom_metrics self |}.

Definition set_custom_metrics (m : gmap string string) (self : WebPageTest)
  : WebPageTest :=
  {| job := job self; raw_job := raw_job self;
     first_failure := first_failure self;
     is_rebooting := is_rebooting self; is_dead := is_dead self;
     options := options self; work_servers := work_servers self;
     url := url self; test_locations := test_locations self;
     location := location self; scheduler_nodes := scheduler_nodes self;
     custom_metrics := m |}.

(** Modelled from the spec: [reboot], a method of the class whose body is
    outside the source.  The spec describes it as an external recovery
    action behind a one-way latch, [is_rebooting] going from false to
    true.  The request itself is the trace event [RebootRequest]. *)
Definition reboot (self : WebPageTest) : WebPageTest :=
  set_is_rebooting true self.

(** ** [get_test] *)

Definition getwork_query : string :=
  "getwork.php?f=json&shards=1&reboot=1&servers=1&testinfo=1".

Definition no_endpoint_message : string :=
  "No work servers or scheduler nodes configured. " +:+
  "Please specify --server or --scheduler options.".

(** *** Float arithmetic

    [monotonic()] returns Python floats (binary64) and [now -
    self.first_failure] is a float subtraction: the exact difference
    rounded to the nearest float, ties to even, infinite on overflow.
    The difference of two finite floats is never a NaN. *)
Inductive float64 : Type :=
  | F64 (value : Q)
  | F64_inf (negative : bool).

(** [num / den] rounded to the nearest integer, ties to even
    ([0 <= num], [0 < den]). *)
Definition round_half_even (num den : Z) : Z :=
  let quo := num / den in
  match 2 * (num mod den) ?= den with
  | Lt => quo
  | Gt => quo + 1
  | Eq => if Z.even quo then quo else quo + 1
  end.

(** [floor (log2 (a / d))] for [0 < a] and [0 < d]. *)
Definition floor_log2_ratio (a d : Z) : Z :=
  let l := Z.log2 a - Z.log2 d in
  if d * 2 ^ Z.max 0 l <=? a * 2 ^ Z.max 0 (- l) then l else l - 1.

(** Rounding to binary64: 53 bits of significand, exponents of the last
    bit from -1074 (subnormals) to 971. *)
Definition round64 (q : Q) : float64 :=
  let r := Qred q in
  let n := Qnum r in
  let d := Zpos (Qden r) in
  if n =? 0 then F64 0
  else
    let a := Z.abs n in
    let e := Z.max (floor_log2_ratio a d - 52) (-1074) in
    let m := round_half_even (a * 2 ^ Z.max 0 (- e)) (d * 2 ^ Z.max 0 e) in
    if (971 <? e) || ((e =? 971) && (2 ^ 53 <=? m)) then F64_inf (n <? 0)
    else F64 (Qred ((Z.sgn n * m * 2 ^ Z.max 0 e)
                    # Z.to_pos (2 ^ Z.max 0 (- e)))).

(** [a - b] on floats. *)
Definition float_sub (a b : Q) : float64 := round64 (a - b).

(** [elapsed > 1800]: a float against an integer, compared exactly. *)
Definition exceeds (elapsed : float64) (threshold : Q) : bool :=
  match elapsed with
  | F64 value => negb (Qle_bool value threshold)
  | F64_inf negative => negb negative
  end.

(** The same, as a proposition. *)
Definition float_gt (elapsed : float64) (threshold : Q) : Prop :=
  match elapsed with
  | F64 value => (threshold < value)%Q
  | F64_inf negative => negative = false
  end.

Definition reboot_threshold : Q := 1800 # 1.

(** The [error_msg] of the [RequestException] handler. *)
Definition request_error_msg (msg : string) (status : option Z) : string :=
  match status with
  | Some code => msg +:+ " (Status: " +:+ pretty code +:+ ")"
  | None => msg
  end.

(** The local variables of the polling loop, with the object, the trace
    and the exception in flight, if one left the [try] statement. *)
Record Poll : Type := {
  p_self : WebPageTest;
  p_job : pyvalue;
  p_count : Z;
  p_retry : bool;
  p_trace : list Event;
  p_raised : option exn
}.

(** The handler of [requests.exceptions.RequestException]. *)
Definition on_request_exception (w : World) (count : Z) (u : string)
    (msg : string) (status : option Z) (self : WebPageTest)
  : WebPageTest * list Event :=
  let error_msg := request_error_msg msg status in
  let log :=
    LogCritical ("Get Work Error connecting to " +:+ u +:+ ": " +:+ error_msg) in
  let now := monotonic w count in
  let self1 :=
    match first_failure self with
    | None => set_first_failure (Some now) self
    | Some _ => self
    end in
  let first := from_option id now (first_failure self) in
  let elapsed := float_sub now first in
  if exceeds elapsed reboot_threshold
  then (reboot self1, [log; Monotonic; RebootRequest; Sleep (1 # 10)])
  else (self1, [log; Monotonic; Sleep (1 # 10)]).

(** The [try] block of one attempt: the exception it raises, or the value
    it assigns to [job] ([None] here: no assignment, the body was empty). *)
Definition try_block (w : World) (count : Z) (u : string)
  : (exn + option pyvalue) * list Event :=
  let evs := [LogInfo ("Checking for work: " +:+ u); HttpGet u 10 true] in
  match session_get w count u with
  | Responded text =>
      let response_text :=
        if (String.length text =? 0)%nat then None else Some text in
      match response_text with
      | Some body =>
          match json_loads w body with
          | inl v => (inr (Some v), evs)
          | inr msg => (inl (OtherException msg), evs)
          end
      | None => (inr None, evs)
      end
  | Raises e => (inl e, evs)
  end.

(** The handler of every other [Exception]. *)
Definition on_exception (msg : string) : list Event :=
  [LogException ("Unexpected error in get_test: " +:+ msg)].

(** One pass through the body of [while count < 3 and retry].  An
    exception that neither [except] clause takes leaves the statement. *)
Definition poll_once (w : World) (p : Poll) : Poll :=
  let retry := false in
  let count := p_count p + 1 in
  let u := url (p_self p) +:+ getwork_query in
  let '(r, evs) := try_block w count u in
  match r with
  | inr assigned =>
      {| p_self := p_self p; p_job := from_option id (p_job p) assigned;
         p_count := count; p_retry := retry; p_trace := p_trace p ++ evs;
         p_raised := None |}
  | inl (RequestException msg status) =>
      let '(self', handled) :=
        on_request_exception w count u msg status (p_self p) in
      {| p_self := self'; p_job := p_job p; p_count := count;
         p_retry := retry; p_trace := p_trace p ++ evs ++ handled;
         p_raised := None |}
  | inl (OtherException msg) =>
      {| p_self := p_self p; p_job := p_job p; p_count := count;
         p_retry := retry; p_trace := p_trace p ++ evs ++ on_exception msg;
         p_raised := None |}
  | inl (SystemExiting name) =>
      {| p_self := p_self p; p_job := p_job p; p_count := count;
         p_retry := retry; p_trace := p_trace p ++ evs;
         p_raised := Some (SystemExiting name) |}
  end.

(** [while count < 3 and retry: ...].  The loop has no structural argument,
    so it runs on fuel; [None] is fuel run out, not a Python outcome.  An
    exception in flight ends the loop at once. *)
Fixpoint poll_loop (fuel : nat) (w : World) (p : Poll) : option Poll :=
  match p_raised p with
  | Some _ => Some p
  | None =>
      if (p_count p <? 3) && p_retry p then
        match fuel with
        | O => None
        | S fuel' => poll_loop fuel' w (poll_once w p)
        end
      else Some p
  end.

(** What a call hands back: the returned job, the object afterwards and the
    effects of the call. *)
Definition Outcome : Type := pyvalue * WebPageTest * list Event.

(** The locals on entry to the loop: [job = None], [self.raw_job = None],
    [count = 0], [retry = True]. *)
Definition start (self : WebPageTest) : Poll :=
  {| p_self := set_raw_job PyNone self; p_job := PyNone; p_count := 0;
     p_retry := true; p_trace := []; p_raised := None |}.

Definition outcome_of (p : Poll) : Outcome := (p_job p, p_self p, p_trace p).

(** How a call ends: it returns, or an exception goes on to the caller,
    with the object and the effects so far. *)
Inductive completion : Type :=
  | Returns (o : Outcome)
  | Propagates (e : exn) (self : WebPageTest) (tr : list Event).

Definition complete (p : Poll) : completion :=
  match p_raised p with
  | Some e => Propagates e (p_self p) (p_trace p)
  | None => Returns (outcome_of p)
  end.

Definition get_test_fuel (fuel : nat) (self : WebPageTest)
    (browsers : pyvalue) (w : World) : option completion :=
  if is_rebooting self || is_dead self || opt_pubsub (options self) then
    Some (Returns (PyNone, self, []))
  else if (length (work_servers self) =? 0)%nat
          && (length (scheduler_nodes self) =? 0)%nat then
    Some (Returns (PyNone, self, [LogCritical no_endpoint_message]))
  else
    complete <$> poll_loop fuel w (start self).

(** A call of [get_test].  [count] starts at 0 and the loop needs
    [count < 3]: three units of fuel cover every run (see
    [poll_loop_fuel] and [run_get_test_ends]). *)
Definition run_get_test (self : WebPageTest) (browsers : pyvalue) (w : World)
  : option completion :=
  get_test_fuel 3 self browsers w.

(** What a call of [get_test] returns; nothing when an exception goes on
    to the caller instead. *)
Definition get_test (self : WebPageTest) (browsers : pyvalue) (w : World)
  : option Outcome :=
  match run_get_test self browsers w with
  | Some (Returns o) => Some o
  | _ => None
  end.

(** ** Strings, as Python's [str] methods use them *)

(** [s.split(sep)] for a one-character separator. *)
Fixpoint split_on (sep : ascii) (s : string) : list string :=
  match s with
  | EmptyString => [EmptyString]
  | String c rest =>
      if decide (c = sep) then EmptyString :: split_on sep rest
      else match split_on sep rest with
           | piece :: pieces => String c piece :: pieces
           | [] => [String c EmptyString]
           end
  end.

(** [s.endswith(suffix)] *)
Fixpoint endswith (suffix s : string) : bool :=
  if String.eqb s suffix then true
  else match s with
       | EmptyString => false
       | String _ rest => endswith suffix rest
       end.

(** [s.startswith(prefix)] *)
Definition startswith (prefix s : string) : bool := String.prefix prefix s.

Fixpoint has_slash (s : string) : bool :=
  match s with
  | EmptyString => false
  | String c rest => if decide (c = "/"%char) then true else has_slash rest
  end.

(** [os.path.basename] (POSIX): what follows the last slash. *)
Fixpoint basename (p : string) : string :=
  match p with
  | EmptyString => EmptyString
  | String c rest =>
      if has_slash rest then basename rest
      else if decide (c = "/"%char) then rest else p
  end.

(** [s[:-n]] for [n > 0]: all but the last [n] characters, nothing when the
    string is shorter. *)
Definition drop_last (n : nat) (s : string) : string :=
  String.substring 0 (String.length s - n) s.

(** ** The custom-metric loader *)

(** What [open(file, 'rt')] and [f.read()] do: the text read, or an
    exception (the file cannot be opened, or does not decode). *)
Inductive read_result : Type :=
  | ReadText (content : string)
  | ReadError.

(** The part of the file system the loader looks at: the path of
    [custom/metrics], whether it is a directory, the names in it and what
    reading a path gives.  [glob] reads the characters [*], [?] and [[]
    as patterns in the directory part too: [pattern_dirs] are the
    directories that the path of [custom/metrics] matches when it is read
    as a pattern, each with the names in it. *)
Record FileSystem : Type := {
  metrics_dir : string;
  isdir : bool;
  listdir : list string;
  pattern_dirs : list (string * list string);
  read_text : string -> read_result
}.

(** [glob.has_magic] *)
Fixpoint has_magic (s : string) : bool :=
  match s with
  | EmptyString => false
  | String c rest =>
      if decide (c = "*"%char) then true
      else if decide (c = "?"%char) then true
      else if decide (c = "["%char) then true
      else has_magic rest
  end.

(** [fnmatch] with the pattern [*.js]. *)
Definition fnmatch_js (name : string) : bool := endswith ".js" name.

(** [glob._ishidden] *)
Definition ishidden (name : string) : bool := startswith "." name.

(** The names [glob] keeps for the pattern [*.js]: the pattern does not
    start with a dot, so hidden names are dropped before matching. *)
Definition glob_matches (name : string) : bool :=
  negb (ishidden name) && fnmatch_js name.

(** [glob] in one directory: the paths of the names it keeps. *)
Definition glob_in_dir (dir : string) (names : list string) : list string :=
  (fun name => dir +:+ "/" +:+ name) <$> List.filter glob_matches names.

(** [glob.glob(metrics_dir + '/*.js')]: with no pattern character in the
    directory part, the scripts of that directory; otherwise the scripts
    of the directories the pattern matches. *)
Definition glob_js (fs : FileSystem) : list string :=
  if has_magic (metrics_dir fs)
  then flat_map (fun d => glob_in_dir (fst d) (snd d)) (pattern_dirs fs)
  else glob_in_dir (metrics_dir fs) (listdir fs).

(** The body of [for file in files]. *)
Definition load_file (fs : FileSystem)
    (acc : gmap string string * list Event) (file : string)
  : gmap string string * list Event :=
  match read_text fs file with
  | ReadText metric_value =>
      if (String.length metric_value =? 0)%nat then acc
      else
        let metric_name := drop_last 3 (basename file) in
        (<[metric_name := metric_value]> (fst acc),
         snd acc ++ [LogDebug ("Loaded custom metric " +:+ metric_name
                               +:+ " from " +:+ file)])
  | ReadError => acc
  end.

Definition load_local_custom_metrics (fs : FileSystem) (self : WebPageTest)
  : WebPageTest * list Event :=
  if isdir fs then
    let files := glob_js fs in
    let acc := foldl (load_file fs) (custom_metrics self, []) files in
    (set_custom_metrics (fst acc) self, snd acc)
  else (self, []).

(** ** The constructor *)

Definition no_server_warning : string :=
  "No WebPageTest server configured. Please specify --server option " +:+
  "(e.g., --server http://your-server.com/work/) or --scheduler option.".

(** [x.split(',')] and [x.split(',')[0]]; [split] never returns an empty
    list (see [split_on_nonempty]), so the index is always in range. *)
Definition split_comma (s : string) : list string := split_on ","%char s.
Definition first_of (l : list string) : string := hd EmptyString l.

Definition init (o : Options) (fs : FileSystem) : WebPageTest * list Event :=
  let work_servers0 :=
    match opt_server o with
    | Some server =>
        let work_servers_str :=
          if String.eqb server "www.webpagetest.org"
          then "http://www.webpagetest.org/" else server in
        split_comma work_servers_str
    | None => []
    end in
  let url0 :=
    match opt_server o with
    | Some _ => first_of work_servers0
    | None => EmptyString
    end in
  let test_locations0 :=
    match opt_location o with
    | Some l => split_comma l
    | None => []
    end in
  let location0 :=
    match opt_location o with
    | Some _ => first_of test_locations0
    | None => EmptyString
    end in
  let scheduler_nodes0 :=
    match opt_schedulernode o with
    | Some n => split_comma n
    | None => []
    end in
  let self0 :=
    {| job := PyNone; raw_job := PyNone; first_failure := None;
       is_rebooting := false; is_dead := false; options := o;
       work_servers := work_servers0; url := url0;
       test_locations := test_locations0; location := location0;
       scheduler_nodes := scheduler_nodes0; custom_metrics := ∅ |} in
  let '(self1, loaded) := load_local_custom_metrics fs self0 in
  if (length (work_servers self1) =? 0)%nat
     && (length (scheduler_nodes self1) =? 0)%nat
     && negb (opt_pubsub (options self1))
  then (self1, loaded ++ [LogWarning no_server_warning])
  else (self1, loaded).

(** The objects a program can hold: a freshly constructed one, or one on
    which [get_test] has been called. *)
Inductive reachable : WebPageTest -> Prop :=
  | reachable_init (o : Options) (fs : FileSystem) :
      reachable (fst (init o fs))
  | reachable_get_test (self self' : WebPageTest) (browsers : pyvalue)
      (w : World) (j : pyvalue) (tr : list Event) :
      reachable self ->
      get_test self browsers w = Some (j, self', tr) ->
      reachable self'.

(** ** Sample inputs *)

(** A parser for the examples: it knows two bodies and rejects the rest. *)
Definition sample_loads : json_parser :=
  fun body =>
    if String.eqb body "{}" then inl (PyDict [])
    else if String.eqb body "null" then inl PyNone
    else inr "Expecting value".

Definition sample_options : Options :=
  {| opt_server := Some "http://wpt.example/work/,http://backup.example/work/";
     opt_location := Some "Test";
     opt_scheduler := None;
     opt_schedulernode := None;
     opt_pubsub := false |}.

Definition empty_fs : FileSystem :=
  {| metrics_dir := "/agent/custom/metrics"; isdir := false; listdir := [];
     pattern_dirs := [];
     read_text := fun _ => ReadError |}.

Definition sample_self : WebPageTest := fst (init sample_options empty_fs).

(** Every attempt times out; the clock reads 10 s more at each attempt. *)
Definition failing_world : World :=
  {| session_get := fun _ _ => Raises (RequestException "timed out" None);
     monotonic := fun n => inject_Z (10 * n);
     json_loads := sample_loads |}.

(** The first attempt times out, the later ones would bring a job. *)
Definition recovering_world : World :=
  {| session_get := fun n _ =>
       if n =? 1 then Raises (RequestException "timed out" None)
       else Responded "{}";
     monotonic := fun n => inject_Z (10 * n);
     json_loads := sample_loads |}.

(** The server answers with an empty body: no job. *)
Definition idle_world : World :=
  {| session_get := fun _ _ => Responded "";
     monotonic := fun n => inject_Z (10 * n);
     json_loads := sample_loads |}.

(** The server answers with a job. *)
Definition busy_world : World :=
  {| session_get := fun _ _ => Responded "{}";
     monotonic := fun n => inject_Z (10 * n);
     json_loads := sample_loads |}.

(** No endpoint at all: neither [--server] nor [--schedulernode]. *)
Definition bare_options : Options :=
  {| opt_server := None; opt_location := None; opt_scheduler := None;
     opt_schedulernode := None; opt_pubsub := false |}.

Definition bare_self : WebPageTest := fst (init bare_options empty_fs).

(** Scheduler nodes but no work server. *)
Definition scheduler_options : Options :=
  {| opt_server := None; opt_location := None;
     opt_scheduler := Some "http://scheduler.example/";
     opt_schedulernode := Some "node1,node2"; opt_pubsub := false |}.

Definition scheduler_self : WebPageTest :=
  fst (init scheduler_options empty_fs).

(** The object after an outage began at clock reading 10. *)
Definition troubled_self : WebPageTest :=
  set_first_failure (Some (10 # 1)) sample_self.

(** A timeout seen when the clock reads [now]. *)
Definition timeout_at (now : Q) : World :=
  {| session_get := fun _ _ => Raises (RequestException "timed out" None);
     monotonic := fun _ => now;
     json_loads := sample_loads |}.

(** The server answers with a body that is not JSON. *)
Definition garbled_world : World :=
  {| session_get := fun _ _ => Responded "<html>";
     monotonic := fun n => inject_Z (10 * n);
     json_loads := sample_loads |}.

(** ** Vocabulary of the properties *)

(** The call gets past both guards and enters the polling loop. *)
Definition polls (self : WebPageTest) : Prop :=
  is_rebooting self = false /\ is_dead self = false /\
  opt_pubsub (options self) = false /\
  (work_servers self <> [] \/ scheduler_nodes self <> []).

(** The URL a call on [self] requests. *)
Definition poll_url (self : WebPageTest) : string :=
  url self +:+ getwork_query.

(** How the [try] block of attempt [n] of a call on [self] ends. *)
Definition fetch (w : World) (self : WebPageTest) (n : nat)
  : exn + option pyvalue :=
  fst (try_block w (Z.of_nat n) (poll_url self)).

(** The loader takes the file [name] of the metrics directory with the
    text [content]: [glob] keeps the name, the file reads, and the text is
    not empty. *)
Definition loads (fs : FileSystem) (name content : string) : Prop :=
  In name (listdir fs) /\ glob_matches name = true /\
  read_text fs (metrics_dir fs +:+ "/" +:+ name) = ReadText content /\
  content <> EmptyString.

(** The same, decided. *)
Definition loadsb (fs : FileSystem) (name : string) : bool :=
  glob_matches name &&
  match read_text fs (metrics_dir fs +:+ "/" +:+ name) with
  | ReadText content => negb (String.length content =? 0)%nat
  | ReadError => false
  end.

(** Names of a directory hold no slash. *)
Definition plain_names (fs : FileSystem) : Prop :=
  forall name, In name (listdir fs) -> has_slash name = false.

(** A metrics directory: two metrics, an empty one, one that does not
    read, a hidden one and a file that is no script. *)
Definition sample_fs : FileSystem :=
  {| metrics_dir := "/agent/custom/metrics";
     isdir := true;
     listdir := ["fonts.js"; "empty.js"; "locked.js"; ".hidden.js";
                 "notes.txt"; "colors.js"];
     pattern_dirs := [];
     read_text := fun path =>
       if String.eqb path "/agent/custom/metrics/fonts.js"
       then ReadText "return 1;"
       else if String.eqb path "/agent/custom/metrics/empty.js"
       then ReadText ""
       else if String.eqb path "/agent/custom/metrics/.hidden.js"
       then ReadText "return 2;"
       else if String.eqb path "/agent/custom/metrics/notes.txt"
       then ReadText "todo"
       else if String.eqb path "/agent/custom/metrics/colors.js"
       then ReadText "return 3;"
       else ReadError |}.


(** The server answers with the JSON literal [null]. *)
Definition null_world : World :=
  {| session_get := fun _ _ => Responded "null";
     monotonic := fun n => inject_Z (10 * n);
     json_loads := sample_loads |}.

(** The server answers 503 when the clock reads [now]. *)
Definition unavailable_at (now : Q) : World :=
  {| session_get := fun _ _ =>
       Raises (RequestException "503 Server Error" (Some 503));
     monotonic := fun _ => now;
     json_loads := sample_loads |}.

(** The log record of the loader for the file [name] of the directory. *)
Definition loaded_record (fs : FileSystem) (name : string) : Event :=
  LogDebug ("Loaded custom metric " +:+ drop_last 3 name +:+ " from "
            +:+ metrics_dir fs +:+ "/" +:+ name).

Fixpoint has_comma (s : string) : bool :=
  match s with
  | EmptyString => false
  | String c rest => if decide (c = ","%char) then true else has_comma rest
  end.

(** [','.join(pieces)] *)
Definition join_comma (pieces : list string) : string :=
  String.concat "," pieces.

(** A mapping that already holds two metrics, one of which the sample
    directory also defines. *)
Definition preloaded_self : WebPageTest :=
  set_custom_metrics (<["fonts" := "return 0;"]> (<["legacy" := "return 9;"]> ∅))
    sample_self.

(** The user interrupts the GET. *)
Definition interrupted_world : World :=
  {| session_get := fun _ _ => Raises (SystemExiting "KeyboardInterrupt");
     monotonic := fun n => inject_Z (10 * n);
     json_loads := sample_loads |}.

(** Whatever the session raises is an error. *)
Definition raises_errors_only (w : World) : Prop :=
  forall n u e, session_get w n u = Raises e -> is_error e = true.

(** The binding of the key [k] after the body of the loader's loop ran
    on [file], from its binding [o] before. *)
Definition load_key (fs : FileSystem) (k : string) (o : option string)
    (file : string) : option string :=
  match read_text fs file with
  | ReadText metric_value =>
      if (String.length metric_value =? 0)%nat then o
      else if decide (drop_last 3 (basename file) = k)
           then Some metric_value else o
  | ReadError => o
  end.

(** A directory whose path [glob] reads as a pattern: the brackets match
    one character, so the scripts come from [/opt/agent1], not from the
    directory itself. *)
Definition bracket_fs : FileSystem :=
  {| metrics_dir := "/opt/agent[1]/custom/metrics";
     isdir := true;
     listdir := ["fonts.js"];
     pattern_dirs := [("/opt/agent1/custom/metrics", ["other.js"])];
     read_text := fun path =>
       if String.eqb path "/opt/agent[1]/custom/metrics/fonts.js"
       then ReadText "return 1;"
       else if String.eqb path "/opt/agent1/custom/metrics/other.js"
       then ReadText "return 7;"
       else ReadError |}.

(** Two work servers and two scheduler nodes. *)
Definition mixed_options : Options :=
  {| opt_server := Some "http://wpt.example/work/,http://backup.example/work/";
     opt_location := Some "Test";
     opt_scheduler := Some "http://scheduler.example/";
     opt_schedulernode := Some "node1,node2";
     opt_pubsub := false |}.

Definition mixed_self : WebPageTest := fst (init mixed_options empty_fs).

(** ** Proof steps *)

(** Unfolds a polling call down to the answer of the world. *)
Ltac one_pass :=
  unfold outcome_of, poll_once, try_block, on_request_exception,
    on_exception, start; simpl; change (0 + 1) with 1.

(** Splits on what the attempt met. *)
Ltac by_answer :=
  match goal with
  | |- context [session_get ?w ?n ?u] =>
      destruct (session_get w n u) as [text|[msg st|msg|name]] eqn:Hget
  end;
  [match goal with
   | |- context [(String.length ?t =? 0)%nat] =>
       destruct (String.length t =? 0)%nat eqn:Hlen
   end;
   [|match goal with
     | |- context [json_loads ?w ?t] =>
         destruct (json_loads w t) as [parsed|err] eqn:Hloads
     end]
  |match goal with
   | |- context [exceeds ?a ?b] => destruct (exceeds a b) eqn:Hexceeds
   end
  | |]; simpl.

(** Evaluates the counters on a trace that is known. *)
Ltac count_events :=
  unfold attempts, reboot_requests, sleeps, requested_urls; simpl.

(** ** The polling loop *)

Section Loop.
Variable w : World.

Lemma poll_once_retry (p : Poll) : p_retry (poll_once w p) = false.
Proof.
  unfold poll_once.
  destruct (try_block w (p_count p + 1) _) as [[[msg st|msg|name]|a] evs];
    [destruct (on_request_exception _ _ _ _ _ _)|..]; reflexivity.
Qed.

Lemma poll_once_count (p : Poll) :
  p_count (poll_once w p) = p_count p + 1.
Proof.
  unfold poll_once.
  destruct (try_block w (p_count p + 1) _) as [[[msg st|msg|name]|a] evs];
    [destruct (on_request_exception _ _ _ _ _ _)|..]; reflexivity.
Qed.

(** The loop ends: [3 - count] units of fuel are enough. *)
Lemma poll_loop_fuel (fuel : nat) (p : Poll) :
  3 - p_count p <= Z.of_nat fuel -> is_Some (poll_loop fuel w p).
Proof.
  revert p. induction fuel as [|fuel IH]; intros p Hfuel; simpl;
    (destruct (p_raised p); [eauto|]).
  - destruct (p_count p <? 3) eqn:Hlt; [apply Z.ltb_lt in Hlt; lia|].
    simpl. eauto.
  - destruct ((p_count p <? 3) && p_retry p); [|eauto].
    apply IH. rewrite poll_once_count. lia.
Qed.

(** [retry] is cleared on entry to the body and set nowhere in it: a
    loop entered makes one pass. *)
Lemma poll_loop_one_pass (fuel : nat) (p : Poll) :
  p_raised p = None -> p_count p < 3 -> p_retry p = true ->
  poll_loop (S fuel) w p = Some (poll_once w p).
Proof.
  intros Hraised Hlt Hretry. simpl.
  apply Z.ltb_lt in Hlt. rewrite Hraised, Hlt, Hretry. simpl.
  destruct fuel; simpl; (destruct (p_raised (poll_once w p)); [reflexivity|]);
    rewrite poll_once_retry, andb_false_r; reflexivity.
Qed.
End Loop.

(** A call always ends: it returns or an exception goes on. *)
Lemma run_get_test_ends (self : WebPageTest) (browsers : pyvalue) (w : World) :
  is_Some (run_get_test self browsers w).
Proof.
  unfold run_get_test, get_test_fuel.
  destruct (is_rebooting self || is_dead self || opt_pubsub (options self));
    [eauto|].
  destruct ((length (work_servers self) =? 0)%nat
            && (length (scheduler_nodes self) =? 0)%nat); [eauto|].
  destruct (poll_loop_fuel w 3 (start self)) as [p Hp]; [simpl; lia|].
  rewrite Hp. simpl. eauto.
Qed.

Lemma polls_guards (self : WebPageTest) :
  polls self ->
  is_rebooting self || is_dead self || opt_pubsub (options self) = false /\
  (length (work_servers self) =? 0)%nat
    && (length (scheduler_nodes self) =? 0)%nat = false.
Proof.
  intros (-> & -> & -> & Hends). split; [reflexivity|].
  destruct (work_servers self), (scheduler_nodes self);
    simpl; try reflexivity.
  destruct Hends; congruence.
Qed.

(** A polling call is one pass of the loop. *)
Lemma run_get_test_polls (self : WebPageTest) (browsers : pyvalue)
    (w : World) :
  polls self ->
  run_get_test self browsers w = Some (complete (poll_once w (start self))).
Proof.
  intros [Hg1 Hg2]%polls_guards.
  unfold run_get_test, get_test_fuel. rewrite Hg1, Hg2.
  rewrite poll_loop_one_pass by (simpl; (lia || reflexivity)).
  reflexivity.
Qed.

Lemma get_test_polls (self : WebPageTest) (browsers : pyvalue) (w : World) :
  polls self ->
  get_test self browsers w
  = match p_raised (poll_once w (start self)) with
    | Some _ => None
    | None => Some (outcome_of (poll_once w (start self)))
    end.
Proof.
  intros Hpolls. unfold get_test.
  rewrite (run_get_test_polls _ _ _ Hpolls). unfold complete.
  by destruct (p_raised _).
Qed.

(** The first guard of [get_test], the second, or one pass. *)
Lemma get_test_cases (self : WebPageTest) (browsers : pyvalue) (w : World) :
  ((is_rebooting self = true \/ is_dead self = true
    \/ opt_pubsub (options self) = true) /\
   get_test self browsers w = Some (PyNone, self, [])) \/
  (is_rebooting self = false /\ is_dead self = false /\
   opt_pubsub (options self) = false /\
   work_servers self = [] /\ scheduler_nodes self = [] /\
   get_test self browsers w
   = Some (PyNone, self, [LogCritical no_endpoint_message])) \/
  (polls self /\
   get_test self browsers w
   = match p_raised (poll_once w (start self)) with
     | Some _ => None
     | None => Some (outcome_of (poll_once w (start self)))
     end).
Proof.
  unfold get_test at 1 2, run_get_test, get_test_fuel.
  destruct (is_rebooting self) eqn:Hr; [left; auto|].
  destruct (is_dead self) eqn:Hd; [left; auto|].
  destruct (opt_pubsub (options self)) eqn:Hp; [left; auto 6|].
  right. simpl.
  destruct (work_servers self) as [|s ss] eqn:Hw.
  - destruct (scheduler_nodes self) as [|n ns] eqn:Hn.
    + left. auto 10.
    + right. assert (polls self) by (unfold polls; rewrite Hn; auto).
      split; [assumption|]. by apply get_test_polls.
  - right. assert (polls self) by (unfold polls; rewrite Hw; auto).
    split; [assumption|]. by apply get_test_polls.
Qed.

(** ** One pass, case by case *)

Lemma polls_not_guarded (self : WebPageTest) :
  polls self ->
  ~ (is_rebooting self = true \/ is_dead self = true
     \/ opt_pubsub (options self) = true).
Proof. intros (-> & -> & -> & _) [|[|]]; discriminate. Qed.

Lemma get_test_single_attempt (self self' : WebPageTest)
    (browsers j : pyvalue) (w : World) (tr : list Event) :
  get_test self browsers w = Some (j, self', tr) ->
  (attempts tr <= 1)%nat /\ (polls self -> attempts tr = 1%nat).
Proof.
  intros Hcall.
  destruct (get_test_cases self browsers w)
    as [[Hg H]|[(Hr & Hd & Hp & Hw & Hn & H)|[Hpolls H]]];
    rewrite H in Hcall; revert Hcall.
  - intros [= <- <- <-]. split; [count_events; lia|].
    intros Hpolls. by apply polls_not_guarded in Hpolls.
  - intros [= <- <- <-]. split; [count_events; lia|].
    intros (_ & _ & _ & [|]); congruence.
  - one_pass. by_answer; intros [= <- <- <-]; count_events; auto.
Qed.

(** ** The guards *)

(** C3.  When the agent is rebooting, is dead or runs in push-delivery
    mode, [get_test] returns [None] at once: the object is untouched and
    the trace is empty, so there is no request (and no other effect),
    whatever servers or scheduler nodes are configured. *)
Theorem get_test_guarded (self : WebPageTest) (browsers : pyvalue) (w : World) :
  is_rebooting self = true \/ is_dead self = true
    \/ opt_pubsub (options self) = true ->
  get_test self browsers w = Some (PyNone, self, []).
Proof.
  intros Hguard. unfold get_test, run_get_test, get_test_fuel.
  destruct Hguard as [->|[->| ->]]; simpl;
    [|destruct (is_rebooting self)
     |destruct (is_rebooting self), (is_dead self)]; reflexivity.
Qed.

Lemma get_test_guarded_witness :
  is_rebooting (reboot sample_self) = true /\
  get_test (reboot sample_self) PyNone busy_world
  = Some (PyNone, reboot sample_self, []).
Proof.
  split; [reflexivity|].
  apply (get_test_guarded (reboot sample_self) PyNone busy_world).
  left. reflexivity.
Defined.

(** C4, as the code has it.  With no work server, no scheduler node and
    push delivery off, a call on an agent that is neither rebooting nor
    dead logs the critical configuration error, returns [None], leaves the
    object as it was and makes no request: the log record is the whole
    trace. *)
Theorem get_test_no_endpoint (self : WebPageTest) (browsers : pyvalue)
    (w : World) :
  work_servers self = [] -> scheduler_nodes self = [] ->
  opt_pubsub (options self) = false ->
  is_rebooting self = false -> is_dead self = false ->
  get_test self browsers w
  = Some (PyNone, self, [LogCritical no_endpoint_message]).
Proof.
  intros Hw Hn Hp Hr Hd. unfold get_test, run_get_test, get_test_fuel.
  rewrite Hw, Hn, Hp, Hr, Hd. reflexivity.
Qed.

Lemma get_test_no_endpoint_witness :
  get_test bare_self PyNone busy_world
  = Some (PyNone, bare_self, [LogCritical no_endpoint_message]).
Proof.
  apply (get_test_no_endpoint bare_self PyNone busy_world); reflexivity.
Defined.

(** C4, as stated, fails: an agent marked dead that has no endpoint and no
    push delivery returns at the first guard and logs nothing. *)
Lemma get_test_no_endpoint_dead_silent :
  work_servers (set_is_dead true bare_self) = [] /\
  scheduler_nodes (set_is_dead true bare_self) = [] /\
  opt_pubsub (options (set_is_dead true bare_self)) = false /\
  exists j self' tr,
    get_test (set_is_dead true bare_self) PyNone busy_world
    = Some (j, self', tr) /\
    List.filter is_log_critical tr = [].
Proof.
  repeat split; try reflexivity.
  eexists _, _, _. split; [vm_compute; reflexivity|reflexivity].
Qed.

(** ** The retry loop *)

(** C1, on the code.  Every attempt would time out; the call makes one
    GET, sleeps once and returns [None]: not three attempts. *)
Theorem all_failures_one_attempt :
  (forall n u,
     session_get failing_world n u
     = Raises (RequestException "timed out" None)) /\
  exists self' tr,
    get_test sample_self PyNone failing_world = Some (PyNone, self', tr) /\
    attempts tr = 1%nat /\ sleeps tr = 1%nat.
Proof.
  split; [reflexivity|].
  eexists _, _. split; [vm_compute; reflexivity|]. split; reflexivity.
Qed.

(** C7, on the code.  Attempt 1 times out and attempt 2 would bring the
    body [{}], which parses; the call stops after attempt 1 and returns
    [None], not the parsed job. *)
Theorem failure_then_job_not_fetched :
  fetch recovering_world sample_self 1
  = inl (RequestException "timed out" None) /\
  fetch recovering_world sample_self 2 = inr (Some (PyDict [])) /\
  exists self' tr,
    get_test sample_self PyNone recovering_world = Some (PyNone, self', tr) /\
    attempts tr = 1%nat.
Proof.
  split; [reflexivity|]. split; [reflexivity|].
  eexists _, _. split; [vm_compute; reflexivity|reflexivity].
Qed.

(** Attempt numbers of a call are all 1. *)
Lemma attempt_number (self self' : WebPageTest) (browsers j : pyvalue)
    (w : World) (tr : list Event) (n : nat) :
  get_test self browsers w = Some (j, self', tr) ->
  (1 <= n <= attempts tr)%nat ->
  n = 1%nat /\ polls self /\
  Some (j, self', tr)
  = match p_raised (poll_once w (start self)) with
    | Some _ => None
    | None => Some (outcome_of (poll_once w (start self)))
    end.
Proof.
  intros Hcall Hn.
  destruct (get_test_single_attempt _ _ _ _ _ _ Hcall) as [Hle _].
  split; [lia|].
  destruct (get_test_cases self browsers w)
    as [[Hg H]|[(Hr & Hd & Hp & Hw & Hs & H)|[Hpolls H]]];
    rewrite H in Hcall.
  - injection Hcall as <- <- <-. revert Hn. count_events. lia.
  - injection Hcall as <- <- <-. revert Hn. count_events. lia.
  - split; [assumption|]. by symmetry.
Qed.

(** C6.  When an attempt of a call gets an empty body, it is the last
    attempt, the call returns [None], and nothing follows the GET in the
    trace: no error record, no clock reading, no sleep; the outage clock
    is as it was. *)
Theorem empty_body_ends_call (self self' : WebPageTest) (browsers j : pyvalue)
    (w : World) (tr : list Event) (n : nat) :
  get_test self browsers w = Some (j, self', tr) ->
  (1 <= n <= attempts tr)%nat ->
  session_get w (Z.of_nat n) (poll_url self) = Responded "" ->
  attempts tr = n /\ absent j /\
  last tr = Some (HttpGet (poll_url self) 10 true) /\
  first_failure self' = first_failure self.
Proof.
  intros Hcall Hn Hempty.
  destruct (attempt_number _ _ _ _ _ _ _ Hcall Hn) as (-> & Hpolls & Hout).
  revert Hout. one_pass. unfold poll_url in Hempty.
  change (Z.of_nat 1) with 1 in Hempty.
  rewrite Hempty. simpl. intros [= -> -> ->].
  repeat split.
Qed.

Lemma empty_body_ends_call_witness :
  exists self' tr,
    get_test sample_self PyNone idle_world = Some (PyNone, self', tr) /\
    attempts tr = 1%nat /\ absent PyNone /\
    last tr = Some (HttpGet (poll_url sample_self) 10 true) /\
    first_failure self' = first_failure sample_self.
Proof.
  eexists _, _. split; [vm_compute; reflexivity|].
  eapply (empty_body_ends_call sample_self _ PyNone PyNone idle_world _ 1).
  - vm_compute. reflexivity.
  - vm_compute. split; lia.
  - reflexivity.
Defined.

(** ** Errors stay inside the call *)

Lemma get_test_run (self : WebPageTest) (browsers : pyvalue) (w : World)
    (o : Outcome) :
  get_test self browsers w = Some o <->
  run_get_test self browsers w = Some (Returns o).
Proof.
  unfold get_test.
  destruct (run_get_test self browsers w) as [[o'|e s tr]|];
    split; intros [=]; subst; reflexivity.
Qed.

(** An exception goes on to the caller only when the session raised one
    that is no error. *)
Lemma propagates_only_system_exiting (self self' : WebPageTest)
    (browsers : pyvalue) (w : World) (e : exn) (tr : list Event) :
  run_get_test self browsers w = Some (Propagates e self' tr) ->
  session_get w 1 (poll_url self) = Raises e /\ is_error e = false.
Proof.
  unfold run_get_test, get_test_fuel.
  destruct (is_rebooting self || is_dead self || opt_pubsub (options self));
    [discriminate|].
  destruct ((length (work_servers self) =? 0)%nat
            && (length (scheduler_nodes self) =? 0)%nat); [discriminate|].
  rewrite poll_loop_one_pass by (simpl; (lia || reflexivity)).
  unfold complete, poll_url. one_pass.
  by_answer; intros [=]; subst; auto.
Qed.

(** C8.  Whatever the state and whatever the world answers, a call ends,
    and no error goes on to its caller: the only exceptions that leave
    [get_test] are those that are no [Exception] ([KeyboardInterrupt],
    [SystemExit]), raised by the session; when the session raises errors
    only, the call returns.  And when a call returns after an attempt met
    a request exception, any other error, or a body that [json.loads]
    rejects, the error is in the log and the call returns [None]. *)
Theorem get_test_absorbs_errors (self : WebPageTest) (browsers : pyvalue)
    (w : World) :
  exists c,
    run_get_test self browsers w = Some c /\
    (forall e s t,
       c = Propagates e s t ->
       is_error e = false /\ session_get w 1 (poll_url self) = Raises e) /\
    (raises_errors_only w -> exists o, c = Returns o) /\
    forall j self' tr,
      c = Returns (j, self', tr) ->
      get_test self browsers w = Some (j, self', tr) /\
      forall n,
        (1 <= n <= attempts tr)%nat ->
        (forall msg status,
           session_get w (Z.of_nat n) (poll_url self)
           = Raises (RequestException msg status) ->
           absent j /\
           In (LogCritical ("Get Work Error connecting to " +:+ poll_url self
                            +:+ ": " +:+ request_error_msg msg status)) tr) /\
        (forall msg,
           session_get w (Z.of_nat n) (poll_url self)
           = Raises (OtherException msg) ->
           absent j /\
           In (LogException ("Unexpected error in get_test: " +:+ msg)) tr) /\
        (forall text msg,
           session_get w (Z.of_nat n) (poll_url self) = Responded text ->
           text <> EmptyString -> json_loads w text = inr msg ->
           absent j /\
           In (LogException ("Unexpected error in get_test: " +:+ msg)) tr).
Proof.
  destruct (run_get_test_ends self browsers w) as [c Hrun].
  exists c. split; [assumption|]. split; [|split].
  - intros e s t ->.
    apply propagates_only_system_exiting in Hrun as [Hget Hnot]. auto.
  - intros Herrors. destruct c as [o|e s t]; [eauto|].
    apply propagates_only_system_exiting in Hrun as [Hget Hnot].
    apply Herrors in Hget. congruence.
  - intros j self' tr ->.
    pose proof (proj2 (get_test_run _ _ _ _) Hrun) as Hcall.
    split; [assumption|]. intros n Hn.
    destruct (attempt_number _ _ _ _ _ _ _ Hcall Hn) as (-> & Hpolls & Hout).
    change (Z.of_nat 1) with 1. unfold poll_url, absent.
    revert Hout. one_pass.
    by_answer; intros [= -> -> ->]; (split; [|split]).
    all: try (intros m s Heq;
              first [discriminate Heq
                    |injection Heq as <- <-; split; [reflexivity|];
                     simpl; auto 6]).
    all: try (intros m Heq;
              first [discriminate Heq
                    |injection Heq as <-; split; [reflexivity|];
                     simpl; auto 6]).
    + intros body m [= <-] Hne _. destruct text; [by destruct Hne|discriminate].
    + intros body m [= <-] _ Hbody. congruence.
    + intros body m [= <-] _ Hbody. rewrite Hbody in Hloads.
      injection Hloads as <-. split; [reflexivity|]. simpl. auto 6.
Qed.

Lemma get_test_absorbs_errors_witness :
  raises_errors_only garbled_world /\
  exists self' tr,
    run_get_test sample_self PyNone garbled_world
    = Some (Returns (PyNone, self', tr)) /\
    In (LogException "Unexpected error in get_test: Expecting value") tr.
Proof.
  assert (raises_errors_only garbled_world) as Herrors
    by (intros n u e [=]).
  split; [exact Herrors|].
  destruct (get_test_absorbs_errors sample_self PyNone garbled_world)
    as (c & Hrun & _ & Hreturns & Hlogged).
  destruct (Hreturns Herrors) as [[[j self'] tr] ->].
  destruct (Hlogged j self' tr eq_refl) as [Hcall Hattempts].
  assert (1 <= 1 <= attempts tr)%nat as Hn
    by (revert Hcall; vm_compute; intros [= <- <- <-]; lia).
  destruct (Hattempts 1%nat Hn) as (_ & _ & Hbody).
  destruct (Hbody "<html>" "Expecting value" eq_refl ltac:(discriminate)
              eq_refl) as [-> Hin].
  exists self', tr. split; assumption.
Defined.

(** What is no error is not absorbed: an interrupt during the GET goes on
    to the caller, after the info record and the request. *)
Lemma interrupt_propagates :
  run_get_test sample_self PyNone interrupted_world
  = Some (Propagates (SystemExiting "KeyboardInterrupt")
            (set_raw_job PyNone sample_self)
            [LogInfo ("Checking for work: " +:+ poll_url sample_self);
             HttpGet (poll_url sample_self) 10 true]) /\
  get_test sample_self PyNone interrupted_world = None.
Proof. split; reflexivity. Qed.

(** ** The outage clock *)

(** C2, as the code has it.  A call whose last attempt fetched (a parsed
    job, or an empty body) leaves [first_failure] as it was before the
    call: the code never clears it, so it is unset afterwards exactly when
    it was unset before. *)
Theorem successful_fetch_keeps_clock (self self' : WebPageTest)
    (browsers j : pyvalue) (w : World) (tr : list Event)
    (fetched : option pyvalue) :
  get_test self browsers w = Some (j, self', tr) ->
  (1 <= attempts tr)%nat ->
  fetch w self (attempts tr) = inr fetched ->
  first_failure self' = first_failure self.
Proof.
  intros Hcall Hn Hfetch.
  assert (1 <= attempts tr <= attempts tr)%nat as Hrange by lia.
  destruct (attempt_number _ _ _ _ _ _ _ Hcall Hrange) as (H1 & Hpolls & Hout).
  rewrite H1 in Hfetch. unfold fetch, try_block, poll_url in Hfetch.
  change (Z.of_nat 1) with 1 in Hfetch.
  revert Hout Hfetch. one_pass.
  by_answer; intros [= -> -> ->]; intros [=]; reflexivity.
Qed.

Lemma successful_fetch_keeps_clock_witness :
  exists self' tr,
    get_test troubled_self PyNone busy_world
    = Some (PyDict [], self', tr) /\
    first_failure self' = first_failure troubled_self.
Proof.
  eexists _, _. split; [vm_compute; reflexivity|].
  eapply (successful_fetch_keeps_clock troubled_self _ PyNone (PyDict [])
            busy_world _ (Some (PyDict []))).
  - vm_compute. reflexivity.
  - vm_compute. lia.
  - reflexivity.
Defined.

(** C2, as stated, fails: after an outage began, a call that fetches (an
    empty body, or a job) returns with [first_failure] still set. *)
Lemma successful_fetch_clock_still_set :
  exists self1 tr1 self2 tr2 self3 tr3,
    get_test sample_self PyNone failing_world = Some (PyNone, self1, tr1) /\
    get_test self1 PyNone idle_world = Some (PyNone, self2, tr2) /\
    fetch idle_world self1 (attempts tr2) = inr None /\
    first_failure self2 = Some (10 # 1) /\
    get_test self1 PyNone busy_world = Some (PyDict [], self3, tr3) /\
    fetch busy_world self1 (attempts tr3) = inr (Some (PyDict [])) /\
    first_failure self3 = Some (10 # 1) /\
    first_failure self2 <> None /\ first_failure self3 <> None.
Proof.
  eexists _, _, _, _, _, _.
  split; [vm_compute; reflexivity|].
  split; [vm_compute; reflexivity|].
  split; [reflexivity|]. split; [reflexivity|].
  split; [vm_compute; reflexivity|].
  split; [reflexivity|]. split; [reflexivity|].
  split; discriminate.
Qed.

Lemma exceeds_iff (elapsed : float64) (threshold : Q) :
  exceeds elapsed threshold = true <-> float_gt elapsed threshold.
Proof.
  destruct elapsed as [value|negative]; simpl.
  - rewrite negb_true_iff. split.
    + intros Hle. apply Qnot_le_lt. intros H%Qle_bool_iff. congruence.
    + intros Hlt. destruct (Qle_bool value threshold) eqn:Hle; [|reflexivity].
      apply Qle_bool_iff in Hle. apply Qlt_not_le in Hlt. contradiction.
  - apply negb_true_iff.
Qed.

Lemma exceeds_false_iff (elapsed : float64) (threshold : Q) :
  exceeds elapsed threshold = false <-> ~ float_gt elapsed threshold.
Proof.
  rewrite <- exceeds_iff. destruct (exceeds elapsed threshold); split;
    (congruence || auto).
Qed.

(** *** Rounding to a float *)

Lemma round_half_even_bounds (num den : Z) :
  0 <= num -> 0 < den ->
  0 <= round_half_even num den /\
  2 * num - den <= 2 * round_half_even num den * den <= 2 * num + den.
Proof.
  intros Hnum Hden. unfold round_half_even.
  pose proof (Z.div_mod num den ltac:(lia)) as Hdiv.
  pose proof (Z.mod_pos_bound num den Hden) as Hmod.
  pose proof (Z.div_pos num den Hnum Hden) as Hquo.
  destruct (Z.compare_spec (2 * (num mod den)) den) as [Heq|Hlt|Hgt];
    [destruct (Z.even (num / den))|..]; nia.
Qed.

Lemma floor_log2_ratio_le (a d : Z) :
  0 < a -> 0 < d ->
  d * 2 ^ Z.max 0 (floor_log2_ratio a d)
  <= a * 2 ^ Z.max 0 (- floor_log2_ratio a d).
Proof.
  intros Ha Hd. unfold floor_log2_ratio.
  set (l := Z.log2 a - Z.log2 d).
  destruct (d * 2 ^ Z.max 0 l <=? a * 2 ^ Z.max 0 (- l)) eqn:Htest.
  - by apply Z.leb_le in Htest.
  - clear Htest.
    pose proof (Z.log2_spec a Ha) as [Hla _].
    pose proof (Z.log2_spec d Hd) as [_ Hld].
    pose proof (Z.log2_nonneg a) as Hna.
    pose proof (Z.log2_nonneg d) as Hnd.
    destruct (Z.le_gt_cases 1 l) as [Hpos|Hneg].
    + rewrite (Z.max_r 0 (l - 1)), (Z.max_l 0 (- (l - 1))) by lia.
      rewrite Z.pow_0_r, Z.mul_1_r.
      assert (2 ^ Z.log2 a = 2 ^ Z.succ (Z.log2 d) * 2 ^ (l - 1)) as Hsplit.
      { rewrite <- Z.pow_add_r by lia. f_equal. unfold l. lia. }
      pose proof (Z.pow_pos_nonneg 2 (l - 1) ltac:(lia) ltac:(lia)).
      nia.
    + rewrite (Z.max_l 0 (l - 1)), (Z.max_r 0 (- (l - 1))) by lia.
      rewrite Z.pow_0_r, Z.mul_1_r.
      assert (2 ^ Z.succ (Z.log2 d) = 2 ^ Z.log2 a * 2 ^ (- (l - 1))) as Hsplit.
      { rewrite <- Z.pow_add_r by lia. f_equal. unfold l. lia. }
      pose proof (Z.pow_pos_nonneg 2 (- (l - 1)) ltac:(lia) ltac:(lia)).
      nia.
Qed.

Lemma round64_above (q : Q) :
  (18005 # 10 < q)%Q -> float_gt (round64 q) 1800.
Proof.
  intros Hq. rewrite <- (Qred_correct q) in Hq. unfold round64.
  destruct (Qred q) as [n d]. unfold Qlt in Hq. simpl in Hq.
  cbn [Qnum Qden].
  assert (0 < n) as Hn by lia.
  destruct (n =? 0) eqn:Hzero; [apply Z.eqb_eq in Hzero; lia|].
  rewrite (Z.abs_eq n) by lia. rewrite (Z.sgn_pos n) by lia.
  replace (n <? 0) with false by (symmetry; apply Z.ltb_ge; lia).
  pose proof (floor_log2_ratio_le n (Z.pos d) Hn ltac:(lia)) as Hlg.
  set (lg := floor_log2_ratio n (Z.pos d)) in *.
  set (e := Z.max (lg - 52) (-1074)).
  destruct (Z.le_gt_cases e 0) as [He|He].
  - rewrite (Z.max_l 0 e), (Z.max_r 0 (- e)) by lia.
    rewrite Z.pow_0_r, !Z.mul_1_r.
    pose proof (Z.pow_pos_nonneg 2 (- e) ltac:(lia) ltac:(lia)) as HP.
    set (P := 2 ^ (- e)) in *.
    destruct (round_half_even_bounds (n * P) (Z.pos d) ltac:(nia) ltac:(lia))
      as (Hm0 & Hlow & _).
    set (m := round_half_even (n * P) (Z.pos d)) in *.
    replace (971 <? e) with false by (symmetry; apply Z.ltb_ge; lia).
    replace (e =? 971) with false by (symmetry; apply Z.eqb_neq; lia).
    simpl. rewrite Qred_correct. unfold Qlt. simpl.
    rewrite Z2Pos.id by lia. nia.
  - assert (e = lg - 52) as Hlge by lia.
    rewrite (Z.max_r 0 e), (Z.max_l 0 (- e)) by lia.
    rewrite Z.pow_0_r, !Z.mul_1_r.
    destruct ((971 <? e) || (e =? 971) && (2 ^ 53 <=? _)); [reflexivity|].
    rewrite (Z.max_r 0 lg), (Z.max_l 0 (- lg)) in Hlg by lia.
    rewrite Z.pow_0_r, Z.mul_1_r in Hlg.
    assert (2 ^ lg = 2 ^ e * 2 ^ 52) as Hsplit
      by (rewrite <- Z.pow_add_r by lia; f_equal; lia).
    pose proof (Z.pow_pos_nonneg 2 e ltac:(lia) ltac:(lia)) as HP.
    set (P := 2 ^ e) in *.
    destruct (round_half_even_bounds n (Z.pos d * P) ltac:(lia) ltac:(nia))
      as (Hm0 & Hlow & _).
    set (m := round_half_even n (Z.pos d * P)) in *.
    simpl. rewrite Qred_correct. unfold Qlt. simpl.
    assert (2 ^ 52 = 4503599627370496) as H52 by reflexivity.
    assert (1 <= m) by nia.
    assert (2 <= P) by (unfold P; change 2 with (2 ^ 1) at 1; apply Z.pow_le_mono_r; lia).
    nia.
Qed.

Lemma round64_below (q : Q) :
  (q <= 17995 # 10)%Q -> ~ float_gt (round64 q) 1800.
Proof.
  intros Hq. rewrite <- (Qred_correct q) in Hq. unfold round64.
  destruct (Qred q) as [n d]. unfold Qle in Hq. simpl in Hq.
  cbn [Qnum Qden].
  destruct (n =? 0) eqn:Hzero; [simpl; lra|]. apply Z.eqb_neq in Hzero.
  set (e := Z.max (floor_log2_ratio (Z.abs n) (Z.pos d) - 52) (-1074)).
  destruct (Z.lt_ge_cases n 0) as [Hneg|Hpos].
  - replace (n <? 0) with true by (symmetry; apply Z.ltb_lt; lia).
    rewrite (Z.sgn_neg n) by lia.
    pose proof (Z.pow_pos_nonneg 2 (Z.max 0 (- e)) ltac:(lia) ltac:(lia)).
    pose proof (Z.pow_pos_nonneg 2 (Z.max 0 e) ltac:(lia) ltac:(lia)).
    destruct (round_half_even_bounds (Z.abs n * 2 ^ Z.max 0 (- e))
                (Z.pos d * 2 ^ Z.max 0 e) ltac:(nia) ltac:(nia))
      as (Hm0 & _ & _).
    destruct ((971 <? e) || _); simpl; [discriminate|].
    rewrite Qred_correct. unfold Qlt. simpl. nia.
  - assert (0 < n) as Hn by lia.
    replace (n <? 0) with false by (symmetry; apply Z.ltb_ge; lia).
    unfold e. rewrite (Z.abs_eq n) by lia. rewrite (Z.sgn_pos n) by lia.
    clear e.
    pose proof (floor_log2_ratio_le n (Z.pos d) Hn ltac:(lia)) as Hlg.
    set (lg := floor_log2_ratio n (Z.pos d)) in *.
    set (e := Z.max (lg - 52) (-1074)).
    assert (e <= 0) as He.
    { destruct (Z.le_gt_cases e 0) as [|He]; [assumption|exfalso].
      rewrite (Z.max_r 0 lg), (Z.max_l 0 (- lg)) in Hlg by lia.
      rewrite Z.pow_0_r, Z.mul_1_r in Hlg.
      assert (2 ^ 11 <= 2 ^ lg) by (apply Z.pow_le_mono_r; lia).
      assert (2 ^ 11 = 2048) as H11 by reflexivity. nia. }
    rewrite (Z.max_l 0 e), (Z.max_r 0 (- e)) by lia.
    rewrite Z.pow_0_r, !Z.mul_1_r.
    pose proof (Z.pow_pos_nonneg 2 (- e) ltac:(lia) ltac:(lia)) as HP.
    set (P := 2 ^ (- e)) in *.
    destruct (round_half_even_bounds (n * P) (Z.pos d) ltac:(nia) ltac:(lia))
      as (Hm0 & _ & Hup).
    set (m := round_half_even (n * P) (Z.pos d)) in *.
    replace (971 <? e) with false by (symmetry; apply Z.ltb_ge; lia).
    replace (e =? 971) with false by (symmetry; apply Z.eqb_neq; lia).
    simpl. rewrite Qred_correct. unfold Qlt. simpl.
    rewrite Z2Pos.id by lia. nia.
Qed.

(** Rounding looks at the value of a rational, not at its fraction. *)
Lemma round64_eq (p q : Q) : (p == q)%Q -> round64 p = round64 q.
Proof. intros Heq. unfold round64. by rewrite (Qred_complete p q Heq). Qed.

(** C5.  When an attempt of a call fails with a request exception and the
    outage clock was set to [t0] on entry, the call asks for a reboot
    once if the elapsed time it computes, the float difference of the
    clock reading of the handler and [t0], exceeds 1800, and not at all
    otherwise: once when the reading is 1801 s after [t0] (or anything
    more than 1800.5 s), never when it is 1799 s after [t0] (or anything
    up to 1799.5 s), never at 1800 s.  A call that asked for a reboot
    leaves the agent rebooting, so that no later call asks again: every
    later call returns at the first guard with no effect. *)
Theorem reboot_iff_outage_exceeds (self self' : WebPageTest)
    (browsers j : pyvalue) (w : World) (tr : list Event) (n : nat)
    (t0 : Q) (msg : string) (status : option Z) :
  get_test self browsers w = Some (j, self', tr) ->
  (1 <= n <= attempts tr)%nat ->
  first_failure self = Some t0 ->
  session_get w (Z.of_nat n) (poll_url self)
  = Raises (RequestException msg status) ->
  (reboot_requests tr = 1%nat <->
   float_gt (float_sub (monotonic w (Z.of_nat n)) t0) 1800) /\
  (reboot_requests tr = 0%nat <->
   ~ float_gt (float_sub (monotonic w (Z.of_nat n)) t0) 1800) /\
  ((monotonic w (Z.of_nat n) - t0 == 1801)%Q -> reboot_requests tr = 1%nat) /\
  ((monotonic w (Z.of_nat n) - t0 == 1799)%Q -> reboot_requests tr = 0%nat) /\
  ((monotonic w (Z.of_nat n) - t0 == 1800)%Q -> reboot_requests tr = 0%nat) /\
  ((18005 # 10 < monotonic w (Z.of_nat n) - t0)%Q ->
   reboot_requests tr = 1%nat) /\
  ((monotonic w (Z.of_nat n) - t0 <= 17995 # 10)%Q ->
   reboot_requests tr = 0%nat) /\
  (reboot_requests tr = 1%nat ->
   is_rebooting self' = true /\
   forall browsers' w', get_test self' browsers' w' = Some (PyNone, self', [])) /\
  first_failure self' = Some t0.
Proof.
  intros Hcall Hn Hclock Hraise.
  destruct (attempt_number _ _ _ _ _ _ _ Hcall Hn) as (-> & Hpolls & Hout).
  unfold poll_url in Hraise. change (Z.of_nat 1) with 1 in *.
  revert Hout. one_pass. rewrite Hraise, Hclock. simpl.
  assert (forall d : Q, (monotonic w 1 - t0 == d)%Q ->
            float_sub (monotonic w 1) t0 = round64 d) as Hexact
    by (intros d Hd; by apply round64_eq).
  destruct (exceeds (float_sub (monotonic w 1) t0) reboot_threshold)
    eqn:Hexceeds; simpl; intros [= -> -> ->]; count_events.
  - pose proof Hexceeds as Hgt%exceeds_iff.
    repeat split; try (intros; reflexivity || assumption || discriminate).
    + intros Hnot. contradiction.
    + intros Hd. rewrite (Hexact _ Hd) in Hexceeds. discriminate Hexceeds.
    + intros Hd. rewrite (Hexact _ Hd) in Hexceeds. discriminate Hexceeds.
    + intros Hd%round64_below. contradiction.
  - pose proof Hexceeds as Hle%exceeds_false_iff.
    repeat split; try (intros; reflexivity || assumption || discriminate);
      try (intros Hgt; contradiction).
    + intros Hd. rewrite (Hexact _ Hd) in Hexceeds. discriminate Hexceeds.
    + intros Hd%round64_above. contradiction.
Qed.

Lemma reboot_iff_outage_exceeds_witness :
  exists self1 tr1 self2 tr2,
    get_test troubled_self PyNone (timeout_at 1811) = Some (PyNone, self1, tr1) /\
    reboot_requests tr1 = 1%nat /\
    is_rebooting self1 = true /\
    get_test self1 PyNone (timeout_at 5000) = Some (PyNone, self1, []) /\
    get_test troubled_self PyNone (timeout_at 1809) = Some (PyNone, self2, tr2) /\
    reboot_requests tr2 = 0%nat.
Proof.
  eexists _, _, _, _.
  split; [vm_compute; reflexivity|].
  destruct (reboot_iff_outage_exceeds troubled_self _ PyNone PyNone
              (timeout_at 1811) _ 1 10 "timed out" None
              ltac:(vm_compute; reflexivity) ltac:(vm_compute; lia)
              eq_refl eq_refl)
    as (_ & _ & Hfires & _ & _ & _ & _ & Hlatch & _).
  assert ((monotonic (timeout_at 1811) (Z.of_nat 1) - 10 == 1801)%Q) as Hd
    by reflexivity.
  split; [exact (Hfires Hd)|].
  destruct (Hlatch (Hfires Hd)) as [Hflag Hlater].
  split; [exact Hflag|]. split; [apply Hlater|].
  split; [vm_compute; reflexivity|].
  destruct (reboot_iff_outage_exceeds troubled_self _ PyNone PyNone
              (timeout_at 1809) _ 1 10 "timed out" None
              ltac:(vm_compute; reflexivity) ltac:(vm_compute; lia)
              eq_refl eq_refl)
    as (_ & _ & _ & Hquiet & _).
  apply Hquiet. reflexivity.
Defined.

(** The difference is a float difference.  The floats nearest to 1800.7
    and 0.7 differ by a little more than 1800; their float difference is
    1800, and a failure then asks for no reboot. *)
Lemma float_difference_at_boundary :
  (1800 < (7919562352544973 # 4398046511104)
          - (3152519739159347 # 4503599627370496))%Q /\
  float_sub (7919562352544973 # 4398046511104)
            (3152519739159347 # 4503599627370496) = F64 1800 /\
  exists self' tr,
    get_test (set_first_failure
                (Some (3152519739159347 # 4503599627370496)) sample_self)
      PyNone (timeout_at (7919562352544973 # 4398046511104))
    = Some (PyNone, self', tr) /\
    reboot_requests tr = 0%nat.
Proof.
  split; [reflexivity|]. split; [vm_compute; reflexivity|].
  eexists _, _. split; [vm_compute; reflexivity|reflexivity].
Qed.

(** ** The configuration is kept *)

Lemma split_on_nonempty (sep : ascii) (s : string) : split_on sep s <> [].
Proof.
  destruct s as [|c rest]; simpl; [discriminate|].
  destruct (decide (c = sep)); [discriminate|].
  destruct (split_on sep rest); discriminate.
Qed.

(** The loader touches [custom_metrics] only. *)
Lemma load_local_custom_metrics_config (fs : FileSystem) (self : WebPageTest) :
  let self' := fst (load_local_custom_metrics fs self) in
  url self' = url self /\ work_servers self' = work_servers self /\
  scheduler_nodes self' = scheduler_nodes self /\
  options self' = options self.
Proof.
  unfold load_local_custom_metrics. destruct (isdir fs); simpl; auto.
Qed.

(** The constructor sets [url] to the first work server, or leaves it
    empty when there is none. *)
Lemma init_url (o : Options) (fs : FileSystem) :
  url (fst (init o fs)) = first_of (work_servers (fst (init o fs))).
Proof.
  unfold init.
  match goal with
  | |- context [load_local_custom_metrics fs ?s] =>
      pose proof (load_local_custom_metrics_config fs s) as Hcfg;
      destruct (load_local_custom_metrics fs s) as [self1 loaded]
  end.
  simpl in Hcfg. destruct Hcfg as (Hurl & Hws & _ & _).
  assert (url self1 = first_of (work_servers self1)) as Hinv.
  { rewrite Hurl, Hws. destruct (opt_server o); reflexivity. }
  destruct (_ && _); simpl; exact Hinv.
Qed.

(** A call changes neither the endpoint nor the configuration. *)
Lemma get_test_config (self self' : WebPageTest) (browsers j : pyvalue)
    (w : World) (tr : list Event) :
  get_test self browsers w = Some (j, self', tr) ->
  url self' = url self /\ work_servers self' = work_servers self /\
  scheduler_nodes self' = scheduler_nodes self /\
  options self' = options self.
Proof.
  intros Hcall.
  destruct (get_test_cases self browsers w)
    as [[Hg H]|[(Hr & Hd & Hp & Hw & Hs & H)|[Hpolls H]]];
    rewrite H in Hcall; revert Hcall.
  - intros [= <- <- <-]. auto.
  - intros [= <- <- <-]. auto.
  - one_pass. by_answer; intros [= <- <- <-];
      try destruct (first_failure self); simpl; auto.
Qed.

Lemma reachable_url (self : WebPageTest) :
  reachable self -> url self = first_of (work_servers self).
Proof.
  induction 1 as [o fs|self self' browsers w j tr _ IH Hcall].
  - apply init_url.
  - destruct (get_test_config _ _ _ _ _ _ Hcall) as (-> & -> & _ & _).
    exact IH.
Qed.

(** ** File names *)

Section Names.
Implicit Types (s k d name suffix : string) (c : ascii).

Lemma app_cons c s k : String c s +:+ k = String c (s +:+ k).
Proof. reflexivity. Qed.

Lemma app_empty k : EmptyString +:+ k = k.
Proof. reflexivity. Qed.

Lemma length_app s k :
  String.length (s +:+ k) = (String.length s + String.length k)%nat.
Proof.
  induction s as [|c s IH]; [reflexivity|].
  rewrite app_cons. simpl. by rewrite IH.
Qed.

Lemma substring_app s k : String.substring 0 (String.length s) (s +:+ k) = s.
Proof.
  induction s as [|c s IH].
  - rewrite app_empty. simpl. by destruct k.
  - rewrite app_cons. simpl. by rewrite IH.
Qed.

(** [(k + suffix)[:-len(suffix)] == k] *)
Lemma drop_last_app k suffix :
  drop_last (String.length suffix) (k +:+ suffix) = k.
Proof.
  unfold drop_last. rewrite length_app.
  replace (String.length k + String.length suffix - String.length suffix)%nat
    with (String.length k) by lia.
  apply substring_app.
Qed.

Lemma app_suffix_inj k1 k2 suffix :
  k1 +:+ suffix = k2 +:+ suffix -> k1 = k2.
Proof.
  intros Heq.
  rewrite <- (drop_last_app k1 suffix), <- (drop_last_app k2 suffix).
  by rewrite Heq.
Qed.

Lemma endswith_unfold suffix s :
  endswith suffix s
  = String.eqb s suffix
    || match s with
       | EmptyString => false
       | String _ rest => endswith suffix rest
       end.
Proof. destruct s; cbn [endswith]; by destruct (String.eqb _ _). Qed.

Lemma endswith_inv suffix s :
  endswith suffix s = true -> exists k, s = k +:+ suffix.
Proof.
  induction s as [|c s IH]; rewrite endswith_unfold;
    intros [Heq|Hrest]%orb_true_iff.
  - apply String.eqb_eq in Heq as <-. by exists EmptyString.
  - discriminate.
  - apply String.eqb_eq in Heq as <-. by exists EmptyString.
  - apply IH in Hrest as [k ->]. by exists (String c k).
Qed.

Lemma endswith_app suffix k : endswith suffix (k +:+ suffix) = true.
Proof.
  induction k as [|c k IH]; rewrite endswith_unfold.
  - rewrite app_empty, String.eqb_refl. reflexivity.
  - rewrite app_cons, IH. apply orb_true_r.
Qed.

Lemma has_slash_join d name : has_slash (d +:+ "/" +:+ name) = true.
Proof.
  induction d as [|c d IH]; [reflexivity|].
  rewrite app_cons. simpl. by destruct (decide (c = "/"%char)).
Qed.

(** [basename(d + '/' + name) == name] for a name of a directory. *)
Lemma basename_join d name :
  has_slash name = false -> basename (d +:+ "/" +:+ name) = name.
Proof.
  intros Hplain. induction d as [|c d IH].
  - rewrite app_empty.
    change ("/" +:+ name) with (String "/"%char name).
    simpl. by rewrite Hplain.
  - rewrite app_cons. simpl. by rewrite has_slash_join.
Qed.

(** The key the loader gives a file that [glob] kept. *)
Lemma metric_name_of d name :
  has_slash name = false -> glob_matches name = true ->
  exists k, name = k +:+ ".js" /\
            drop_last 3 (basename (d +:+ "/" +:+ name)) = k.
Proof.
  intros Hplain [_ Hjs]%andb_true_iff.
  apply endswith_inv in Hjs as [k ->].
  exists k. split; [reflexivity|].
  rewrite basename_join by assumption.
  apply (drop_last_app k ".js").
Qed.

Lemma nonempty_length s :
  (String.length s =? 0)%nat = false <-> s <> EmptyString.
Proof.
  destruct s; simpl; split; (congruence || discriminate || done).
Qed.
End Names.

(** ** The custom-metric loader *)

Section Loader.
Variable fs : FileSystem.

End Loader.






(** ** More on [get_test]: requests *)

(** X1.  A call makes a request exactly when it gets past both guards
    (agent live, no push delivery, a work server or a scheduler node
    configured), and then it makes one; otherwise it makes none. *)
Theorem request_iff_polls (self self' : WebPageTest) (browsers j : pyvalue)
    (w : World) (tr : list Event) :
  get_test self browsers w = Some (j, self', tr) ->
  (attempts tr = 1%nat <-> polls self) /\
  (attempts tr = 0%nat <-> ~ polls self).
Proof.
  intros Hcall.
  destruct (get_test_single_attempt _ _ _ _ _ _ Hcall) as [Hle Hone].
  destruct (get_test_cases self browsers w)
    as [[Hg H]|[(Hr & Hd & Hp & Hw & Hn & H)|[Hpolls H]]].
  - rewrite H in Hcall. injection Hcall as <- <- <-.
    assert (~ polls self) as Hnot
      by (intros Hpolls; by apply polls_not_guarded in Hpolls).
    split; split; try (intros; reflexivity || assumption || contradiction).
    count_events. discriminate.
  - rewrite H in Hcall. injection Hcall as <- <- <-.
    assert (~ polls self) as Hnot
      by (intros (_ & _ & _ & [|]); congruence).
    split; split; try (intros; reflexivity || assumption || contradiction).
    count_events. discriminate.
  - specialize (Hone Hpolls).
    split; split; try (intros; assumption || contradiction).
    rewrite Hone. discriminate.
Qed.

Lemma request_iff_polls_witness :
  polls scheduler_self /\
  exists self' tr,
    get_test scheduler_self PyNone idle_world = Some (PyNone, self', tr) /\
    attempts tr = 1%nat.
Proof.
  assert (polls scheduler_self) as Hpolls.
  { unfold polls. repeat split; try reflexivity. right. discriminate. }
  split; [exact Hpolls|].
  eexists _, _. split; [vm_compute; reflexivity|].
  eapply (request_iff_polls scheduler_self _ PyNone PyNone idle_world _).
  - vm_compute. reflexivity.
  - exact Hpolls.
Defined.

(** X2.  Every request of a call is a GET of the polled URL with a timeout
    of 10 seconds and the proxies switched off, and the URL was logged at
    info level. *)
Theorem request_parameters (self self' : WebPageTest) (browsers j : pyvalue)
    (w : World) (tr : list Event) (u : string) (t : Z) (p : bool) :
  get_test self browsers w = Some (j, self', tr) ->
  In (HttpGet u t p) tr ->
  u = poll_url self /\ t = 10 /\ p = true /\
  In (LogInfo ("Checking for work: " +:+ u)) tr.
Proof.
  intros Hcall Hin.
  destruct (get_test_cases self browsers w)
    as [[Hg H]|[(Hr & Hd & Hp & Hw & Hn & H)|[Hpolls H]]];
    rewrite H in Hcall; revert Hcall Hin.
  - intros [= <- <- <-] [].
  - intros [= <- <- <-] [[=]|[]].
  - one_pass. unfold poll_url.
    by_answer; intros [= <- <- <-]; simpl;
      intros Hin; repeat (destruct Hin as [[=]|Hin]); try destruct Hin;
      subst; auto.
Qed.

Lemma request_parameters_witness :
  exists self' tr,
    get_test sample_self PyNone busy_world = Some (PyDict [], self', tr) /\
    In (HttpGet (poll_url sample_self) 10 true) tr /\
    In (LogInfo ("Checking for work: " +:+ poll_url sample_self)) tr.
Proof.
  eexists _, _. split; [vm_compute; reflexivity|].
  split; [right; left; reflexivity|].
  eapply (request_parameters sample_self _ PyNone (PyDict []) busy_world _
            (poll_url sample_self) 10 true).
  - vm_compute. reflexivity.
  - right. left. reflexivity.
Defined.

(** ** More on [get_test]: the job *)

(** X3.  When the first response has a body that is not empty and that
    [json.loads] accepts, a polling call returns the parsed value; the
    trace is the info record and the GET (no error record, no clock
    reading, no sleep) and the object differs only in [raw_job], which is
    [None]. *)
Theorem parsed_body_returned (self : WebPageTest) (browsers v : pyvalue)
    (w : World) (text : string) :
  polls self ->
  session_get w 1 (poll_url self) = Responded text ->
  text <> EmptyString ->
  json_loads w text = inl v ->
  get_test self browsers w
  = Some (v, set_raw_job PyNone self,
          [LogInfo ("Checking for work: " +:+ poll_url self);
           HttpGet (poll_url self) 10 true]).
Proof.
  intros Hpolls Hget Hne%nonempty_length Hloads.
  rewrite (get_test_polls _ _ _ Hpolls). unfold poll_url in *.
  one_pass. rewrite Hget, Hne. simpl. rewrite Hloads. reflexivity.
Qed.

Lemma parsed_body_returned_witness :
  get_test sample_self PyNone null_world
  = Some (PyNone, set_raw_job PyNone sample_self,
          [LogInfo ("Checking for work: " +:+ poll_url sample_self);
           HttpGet (poll_url sample_self) 10 true]).
Proof.
  apply (parsed_body_returned sample_self PyNone PyNone null_world "null").
  - unfold polls. repeat split; try reflexivity. left. discriminate.
  - reflexivity.
  - discriminate.
  - reflexivity.
Defined.

(** X4.  A call returns a job (a value that is not [None]) only when it
    polled and the first response had a non-empty body that [json.loads]
    turned into that value. *)
Theorem job_only_from_parsed_body (self self' : WebPageTest)
    (browsers j : pyvalue) (w : World) (tr : list Event) :
  get_test self browsers w = Some (j, self', tr) ->
  j <> PyNone ->
  polls self /\
  exists text,
    session_get w 1 (poll_url self) = Responded text /\
    text <> EmptyString /\ json_loads w text = inl j.
Proof.
  intros Hcall Hjob.
  destruct (get_test_cases self browsers w)
    as [[Hg H]|[(Hr & Hd & Hp & Hw & Hn & H)|[Hpolls H]]];
    rewrite H in Hcall; revert Hcall.
  - intros [= <- <- <-]. congruence.
  - intros [= <- <- <-]. congruence.
  - split; [assumption|]. revert Hcall. one_pass. unfold poll_url.
    by_answer; intros [= <- <- <-]; try congruence.
    exists text. split; [reflexivity|].
    split; [by apply nonempty_length|assumption].
Qed.

Lemma job_only_from_parsed_body_witness :
  polls sample_self /\
  exists text,
    session_get busy_world 1 (poll_url sample_self) = Responded text /\
    text <> EmptyString /\ json_loads busy_world text = inl (PyDict []).
Proof.
  eapply (job_only_from_parsed_body sample_self _ PyNone (PyDict [])
            busy_world _).
  - vm_compute. reflexivity.
  - discriminate.
Defined.

(** X5.  When the attempt raises an exception that is no request
    exception (a body [json.loads] rejects included), a polling call
    returns [None] and leaves the health state alone: after the exception
    record there is no clock reading, no reboot request and no sleep, and
    the object differs only in [raw_job]. *)
Theorem other_exception_outcome (self : WebPageTest) (browsers : pyvalue)
    (w : World) (reason : string) :
  polls self ->
  fetch w self 1 = inl (OtherException reason) ->
  get_test self browsers w
  = Some (PyNone, set_raw_job PyNone self,
          [LogInfo ("Checking for work: " +:+ poll_url self);
           HttpGet (poll_url self) 10 true;
           LogException ("Unexpected error in get_test: " +:+ reason)]).
Proof.
  intros Hpolls Hfetch.
  rewrite (get_test_polls _ _ _ Hpolls).
  unfold fetch, try_block, poll_url in *.
  change (Z.of_nat 1) with 1 in Hfetch. revert Hfetch.
  one_pass. by_answer; intros [= <-]; reflexivity.
Qed.

Lemma other_exception_outcome_witness :
  get_test sample_self PyNone garbled_world
  = Some (PyNone, set_raw_job PyNone sample_self,
          [LogInfo ("Checking for work: " +:+ poll_url sample_self);
           HttpGet (poll_url sample_self) 10 true;
           LogException "Unexpected error in get_test: Expecting value"]).
Proof.
  apply (other_exception_outcome sample_self PyNone garbled_world
           "Expecting value").
  - unfold polls. repeat split; try reflexivity. left. discriminate.
  - reflexivity.
Defined.

(** ** More on [get_test]: the outage clock *)

(** [now - now] is 0 on floats too. *)
Lemma exceeds_self (now : Q) :
  exceeds (float_sub now now) reboot_threshold = false.
Proof.
  unfold float_sub. rewrite (round64_eq (now - now) 0) by ring. reflexivity.
Qed.

(** X6.  A call that does not ask for a reboot never moves an outage
    clock that is set: whatever the attempt met (a job, an empty body, a
    request exception, any other exception), [first_failure] is the same
    reading afterwards. *)
Theorem set_clock_kept (self self' : WebPageTest) (browsers j : pyvalue)
    (w : World) (tr : list Event) (t0 : Q) :
  get_test self browsers w = Some (j, self', tr) ->
  first_failure self = Some t0 ->
  reboot_requests tr = 0%nat ->
  first_failure self' = Some t0.
Proof.
  intros Hcall Hclock.
  destruct (get_test_cases self browsers w)
    as [[Hg H]|[(Hr & Hd & Hp & Hw & Hn & H)|[Hpolls H]]];
    rewrite H in Hcall; revert Hcall.
  - intros [= <- <- <-] _. assumption.
  - intros [= <- <- <-] _. assumption.
  - one_pass. rewrite Hclock.
    by_answer; intros [= <- <- <-]; count_events;
      (assumption || discriminate || auto).
Qed.

Lemma set_clock_kept_witness :
  exists self' tr,
    get_test troubled_self PyNone (timeout_at 1000) = Some (PyNone, self', tr) /\
    first_failure self' = Some (10 # 1).
Proof.
  eexists _, _. split; [vm_compute; reflexivity|].
  eapply (set_clock_kept troubled_self _ PyNone PyNone (timeout_at 1000) _).
  - vm_compute. reflexivity.
  - reflexivity.
  - reflexivity.
Defined.

(** X7.  With the outage clock unset on entry, a call never asks for a
    reboot, whatever the clock reads, and it leaves the outage clock set
    exactly when it polled and the attempt raised a request exception:
    then to the clock reading of the handler. *)
Theorem first_failure_starts_clock (self self' : WebPageTest)
    (browsers j : pyvalue) (w : World) (tr : list Event) :
  get_test self browsers w = Some (j, self', tr) ->
  first_failure self = None ->
  reboot_requests tr = 0%nat /\
  forall t,
    first_failure self' = Some t <->
    polls self /\
    (exists msg status,
       session_get w 1 (poll_url self)
       = Raises (RequestException msg status)) /\
    t = monotonic w 1.
Proof.
  intros Hcall Hclock.
  destruct (get_test_cases self browsers w)
    as [[Hg H]|[(Hr & Hd & Hp & Hw & Hn & H)|[Hpolls H]]];
    rewrite H in Hcall; revert Hcall.
  - intros [= <- <- <-]. split; [reflexivity|]. intros t. rewrite Hclock.
    split; [discriminate|].
    intros [Hpolls _]. by apply polls_not_guarded in Hpolls.
  - intros [= <- <- <-]. split; [reflexivity|]. intros t. rewrite Hclock.
    split; [discriminate|]. intros [(_ & _ & _ & [|]) _]; congruence.
  - one_pass. unfold poll_url. rewrite Hclock. simpl. rewrite exceeds_self.
    destruct (session_get w 1 _) as [text|[msg st|msg|name]] eqn:Hget;
      [| | |simpl; intros [=]].
    + destruct (String.length text =? 0)%nat;
        [|destruct (json_loads w text)]; simpl;
        intros [= <- <- <-]; (split; [reflexivity|]);
        intros t; simpl; rewrite Hclock;
        (split; [discriminate|intros (_ & (? & ? & [=]) & _)]).
    + simpl. intros [= <- <- <-]. split; [reflexivity|].
      intros t. simpl. split.
      * intros [= <-]. eauto 6.
      * intros (_ & _ & ->). reflexivity.
    + simpl. intros [= <- <- <-]. split; [reflexivity|].
      intros t. simpl. rewrite Hclock.
      split; [discriminate|intros (_ & (? & ? & [=]) & _)].
Qed.

Lemma first_failure_starts_clock_witness :
  first_failure sample_self = None /\
  exists self' tr,
    get_test sample_self PyNone (unavailable_at 987654) = Some (PyNone, self', tr) /\
    reboot_requests tr = 0%nat /\
    first_failure self' = Some (987654 # 1).
Proof.
  split; [reflexivity|].
  eexists _, _. split; [vm_compute; reflexivity|].
  destruct (first_failure_starts_clock sample_self _ PyNone PyNone
              (unavailable_at 987654) _ ltac:(vm_compute; reflexivity) eq_refl)
    as [Hnone Hset].
  split; [exact Hnone|]. reflexivity.
Defined.

(** X8.  A call sleeps at most once, always for a tenth of a second, and
    it sleeps exactly when it polled and the attempt raised a request
    exception. *)
Theorem sleep_iff_request_exception (self self' : WebPageTest)
    (browsers j : pyvalue) (w : World) (tr : list Event) :
  get_test self browsers w = Some (j, self', tr) ->
  (sleeps tr <= 1)%nat /\
  (forall d, In (Sleep d) tr -> d = (1 # 10)%Q) /\
  (sleeps tr = 1%nat <->
   polls self /\
   exists msg status,
     session_get w 1 (poll_url self) = Raises (RequestException msg status)).
Proof.
  intros Hcall.
  destruct (get_test_cases self browsers w)
    as [[Hg H]|[(Hr & Hd & Hp & Hw & Hn & H)|[Hpolls H]]];
    rewrite H in Hcall; revert Hcall.
  - intros [= <- <- <-]. count_events. split; [lia|]. split; [intros d []|].
    split; [discriminate|].
    intros [Hpolls _]. by apply polls_not_guarded in Hpolls.
  - intros [= <- <- <-]. count_events. split; [lia|].
    split; [intros d [[=]|[]]|].
    split; [discriminate|]. intros [(_ & _ & _ & [|]) _]; congruence.
  - one_pass. unfold poll_url.
    by_answer; intros [= <- <- <-]; count_events;
      (split; [lia|]);
      (split;
       [intros d Hin; repeat (destruct Hin as [[=]|Hin]); try destruct Hin;
        subst; reflexivity|]);
      (split; [try discriminate; eauto|]);
      try (intros (_ & ? & ? & [=])); reflexivity.
Qed.

(** X9.  A call that does not ask for a reboot leaves the object's [job],
    flags, endpoint, server lists and custom metrics as they were; a call
    that does not poll leaves the whole object as it was, and a polling
    one leaves [raw_job] at [None], also when it returns a job. *)
Theorem object_after_call (self self' : WebPageTest) (browsers j : pyvalue)
    (w : World) (tr : list Event) :
  get_test self browsers w = Some (j, self', tr) ->
  reboot_requests tr = 0%nat ->
  job self' = job self /\
  is_rebooting self' = is_rebooting self /\ is_dead self' = is_dead self /\
  custom_metrics self' = custom_metrics self /\
  (polls self -> raw_job self' = PyNone) /\
  (~ polls self -> self' = self).
Proof.
  intros Hcall.
  destruct (get_test_cases self browsers w)
    as [[Hg H]|[(Hr & Hd & Hp & Hw & Hn & H)|[Hpolls H]]];
    rewrite H in Hcall; revert Hcall.
  - intros [= <- <- <-] _. repeat split; auto.
    intros Hpolls. by apply polls_not_guarded in Hpolls.
  - intros [= <- <- <-] _. repeat split; auto.
    intros (_ & _ & _ & [|]); congruence.
  - one_pass.
    by_answer; intros [= <- <- <-]; count_events; try discriminate;
      intros _; try destruct (first_failure self); simpl;
      repeat split; auto; intros Hnot; contradiction.
Qed.

Lemma object_after_call_witness :
  exists self' tr,
    get_test sample_self PyNone busy_world = Some (PyDict [], self', tr) /\
    job self' = job sample_self /\ raw_job self' = PyNone.
Proof.
  eexists _, _. split; [vm_compute; reflexivity|].
  destruct (object_after_call sample_self _ PyNone (PyDict []) busy_world _
              ltac:(vm_compute; reflexivity) eq_refl)
    as (Hjob & _ & _ & _ & Hraw & _).
  split; [exact Hjob|]. reflexivity.
Defined.

Lemma sleep_iff_request_exception_witness :
  exists self' tr,
    get_test sample_self PyNone (unavailable_at 5) = Some (PyNone, self', tr) /\
    sleeps tr = 1%nat /\
    polls sample_self /\
    exists msg status,
      session_get (unavailable_at 5) 1 (poll_url sample_self)
      = Raises (RequestException msg status).
Proof.
  eexists _, _. split; [vm_compute; reflexivity|].
  split; [reflexivity|].
  eapply (sleep_iff_request_exception sample_self _ PyNone PyNone
            (unavailable_at 5) _).
  - vm_compute. reflexivity.
  - reflexivity.
Defined.

(** ** Calls in a row *)

Lemma fetched_call (self : WebPageTest) (browsers : pyvalue) (w : World)
    (fetched : option pyvalue) :
  polls self ->
  fetch w self 1 = inr fetched ->
  get_test self browsers w
  = Some (from_option id PyNone fetched, set_raw_job PyNone self,
          [LogInfo ("Checking for work: " +:+ poll_url self);
           HttpGet (poll_url self) 10 true]).
Proof.
  intros Hpolls Hfetch. rewrite (get_test_polls _ _ _ Hpolls).
  unfold fetch, try_block, poll_url in *.
  change (Z.of_nat 1) with 1 in Hfetch. revert Hfetch.
  one_pass. by_answer; intros [= <-]; reflexivity.
Qed.

Lemma failed_call (self : WebPageTest) (browsers : pyvalue) (w : World)
    (reason : string) (status : option Z) :
  polls self ->
  session_get w 1 (poll_url self) = Raises (RequestException reason status) ->
  get_test self browsers w
  = Some (PyNone,
          fst (on_request_exception w 1 (poll_url self) reason status
                 (set_raw_job PyNone self)),
          [LogInfo ("Checking for work: " +:+ poll_url self);
           HttpGet (poll_url self) 10 true]
          ++ snd (on_request_exception w 1 (poll_url self) reason status
                    (set_raw_job PyNone self))).
Proof.
  intros Hpolls Hget. rewrite (get_test_polls _ _ _ Hpolls).
  unfold poll_url in *. unfold outcome_of, poll_once, try_block, start.
  simpl. change (0 + 1) with 1. rewrite Hget.
  destruct (on_request_exception _ _ _ _ _ _). reflexivity.
Qed.

(** X10.  The outage clock runs across successful fetches.  Let a call
    with the clock unset fail with a request exception when the clock
    reads [t1], let the next call fetch (a job or an empty body), and let
    a third call fail with a request exception when the clock reads [t3]:
    the third call asks for a reboot exactly when the float difference
    [t3 - t1] exceeds 1800, as it does when [t3] is 1801 s after [t1]. *)
Theorem outage_spans_successes (self s1 s2 s3 : WebPageTest)
    (browsers j1 j2 j3 : pyvalue) (w1 w2 w3 : World)
    (tr1 tr2 tr3 : list Event) (reason1 reason3 : string)
    (status1 status3 : option Z) (fetched : option pyvalue) :
  polls self -> first_failure self = None ->
  session_get w1 1 (poll_url self)
  = Raises (RequestException reason1 status1) ->
  get_test self browsers w1 = Some (j1, s1, tr1) ->
  fetch w2 s1 1 = inr fetched ->
  get_test s1 browsers w2 = Some (j2, s2, tr2) ->
  session_get w3 1 (poll_url s2)
  = Raises (RequestException reason3 status3) ->
  get_test s2 browsers w3 = Some (j3, s3, tr3) ->
  (reboot_requests tr3 = 1%nat <->
   float_gt (float_sub (monotonic w3 1) (monotonic w1 1)) 1800) /\
  (reboot_requests tr3 = 0%nat <->
   ~ float_gt (float_sub (monotonic w3 1) (monotonic w1 1)) 1800) /\
  ((monotonic w3 1 - monotonic w1 1 == 1801)%Q -> reboot_requests tr3 = 1%nat).
Proof.
  intros Hpolls Hclock Hget1 Hcall1 Hfetch2 Hcall2 Hget3 Hcall3.
  rewrite (failed_call _ _ _ _ _ Hpolls Hget1) in Hcall1.
  unfold on_request_exception in Hcall1. simpl in Hcall1.
  rewrite Hclock in Hcall1. simpl in Hcall1.
  rewrite exceeds_self in Hcall1. simpl in Hcall1.
  injection Hcall1 as <- <- <-.
  assert (polls (set_first_failure (Some (monotonic w1 1))
                   (set_raw_job PyNone self))) as Hpolls1 by exact Hpolls.
  rewrite (fetched_call _ _ _ _ Hpolls1 Hfetch2) in Hcall2.
  injection Hcall2 as <- <- <-.
  assert (polls (set_raw_job PyNone
                   (set_first_failure (Some (monotonic w1 1))
                      (set_raw_job PyNone self)))) as Hpolls2 by exact Hpolls.
  rewrite (failed_call _ _ _ _ _ Hpolls2 Hget3) in Hcall3.
  unfold on_request_exception in Hcall3. simpl in Hcall3.
  destruct (exceeds (float_sub (monotonic w3 1) (monotonic w1 1))
              reboot_threshold)
    eqn:Hexceeds; simpl in Hcall3; injection Hcall3 as <- <- <-;
    count_events.
  - pose proof Hexceeds as Hgt%exceeds_iff.
    repeat split; try (intros; reflexivity || assumption || discriminate).
    intros Hnot. contradiction.
  - pose proof Hexceeds as Hle%exceeds_false_iff.
    repeat split; try (intros; reflexivity || assumption || discriminate);
      try (intros Hgt; contradiction).
    intros Hd. unfold float_sub in Hexceeds.
    rewrite (round64_eq _ _ Hd) in Hexceeds. discriminate Hexceeds.
Qed.

Lemma outage_spans_successes_witness :
  exists s1 tr1 s2 tr2 s3 tr3,
    get_test sample_self PyNone (unavailable_at 100) = Some (PyNone, s1, tr1) /\
    get_test s1 PyNone busy_world = Some (PyDict [], s2, tr2) /\
    get_test s2 PyNone (unavailable_at 2000) = Some (PyNone, s3, tr3) /\
    reboot_requests tr3 = 1%nat.
Proof.
  eexists _, _, _, _, _, _.
  split; [vm_compute; reflexivity|].
  split; [vm_compute; reflexivity|].
  split; [vm_compute; reflexivity|].
  assert (polls sample_self) as Hpolls.
  { unfold polls. repeat split; try reflexivity. left. discriminate. }
  destruct (outage_spans_successes sample_self _ _ _ PyNone PyNone (PyDict [])
              PyNone (unavailable_at 100) busy_world (unavailable_at 2000)
              _ _ _ "503 Server Error" "503 Server Error" (Some 503) (Some 503)
              (Some (PyDict [])) Hpolls eq_refl eq_refl
              ltac:(vm_compute; reflexivity) eq_refl
              ltac:(vm_compute; reflexivity) eq_refl
              ltac:(vm_compute; reflexivity))
    as (Hfires & _ & _).
  apply Hfires. vm_compute. reflexivity.
Defined.

(** ** More on the loader *)

Section LoaderFrom.
Variable fs : FileSystem.

(** The loop over the files [glob] returned for [names], from any mapping:
    a script that the loop takes sets its key, the other keys keep what
    they had. *)
Lemma load_loop_lookup_from (m0 : gmap string string) (tr0 : list Event)
    (names : list string) (k v : string) :
  (forall name, In name names ->
     has_slash name = false /\ glob_matches name = true) ->
  fst (foldl (load_file fs) (m0, tr0)
         ((fun name => metrics_dir fs +:+ "/" +:+ name) <$> names)) !! k
  = Some v
  <-> (In (k +:+ ".js") names /\
       read_text fs (metrics_dir fs +:+ "/" +:+ k +:+ ".js") = ReadText v /\
       v <> EmptyString) \/
      (~ (In (k +:+ ".js") names /\
          exists v',
            read_text fs (metrics_dir fs +:+ "/" +:+ k +:+ ".js")
            = ReadText v' /\ v' <> EmptyString) /\
       m0 !! k = Some v).
Proof.
  induction names as [|x names IH] using rev_ind; intros Hnames.
  - simpl. split; [intros Hm; right; split; [intros [[] _]|exact Hm]|].
    intros [[[] _]|[_ Hm]]. exact Hm.
  - rewrite fmap_app, foldl_app. cbn [fmap list_fmap foldl].
    assert (forall name, In name names ->
              has_slash name = false /\ glob_matches name = true) as Hinit
      by (intros name Hin; apply Hnames, in_app_iff; by left).
    specialize (IH Hinit).
    destruct (Hnames x) as [Hplain Hglob]; [apply in_app_iff; right; by left|].
    destruct (metric_name_of (metrics_dir fs) x Hplain Hglob)
      as (kx & -> & Hkey).
    rewrite in_app_iff. simpl In.
    destruct (decide (kx = k)) as [->|Hother].
    + unfold load_file.
      destruct (read_text fs (metrics_dir fs +:+ "/" +:+ k +:+ ".js"))
        as [content|] eqn:Hread.
      * destruct (String.length content =? 0)%nat eqn:Hlen.
        -- rewrite IH.
           assert (forall v', ReadText content = ReadText v' ->
                     v' <> EmptyString -> False) as Hnone.
           { intros v' [= <-] Hne%nonempty_length. congruence. }
           split.
           ++ intros [(_ & Hv & Hne)|[_ Hm]]; [by destruct (Hnone v)|].
              right. split; [|exact Hm].
              intros (_ & v' & Hv & Hne). by destruct (Hnone v').
           ++ intros [(_ & Hv & Hne)|[_ Hm]]; [by destruct (Hnone v)|].
              right. split; [|exact Hm].
              intros (_ & v' & Hv & Hne). by destruct (Hnone v').
        -- rewrite Hkey. simpl. rewrite lookup_insert_eq.
           apply nonempty_length in Hlen. split.
           ++ intros [= <-]. left. auto.
           ++ intros [(_ & [= ->] & _)|[Hnot _]]; [reflexivity|].
              destruct Hnot. split; [auto|eauto].
      * rewrite IH. split.
        -- intros [(_ & [=] & _)|[_ Hm]]. right. split; [|exact Hm].
           intros (_ & v' & [=] & _).
        -- intros [(_ & [=] & _)|[_ Hm]]. right. split; [|exact Hm].
           intros (_ & v' & [=] & _).
    + assert (kx +:+ ".js" <> k +:+ ".js") as Hne
        by (intros Heq%app_suffix_inj; contradiction).
      assert (fst (load_file fs
                     (foldl (load_file fs) (m0, tr0)
                        ((fun name => metrics_dir fs +:+ "/" +:+ name)
                           <$> names))
                     (metrics_dir fs +:+ "/" +:+ kx +:+ ".js")) !! k
              = fst (foldl (load_file fs) (m0, tr0)
                       ((fun name => metrics_dir fs +:+ "/" +:+ name)
                          <$> names)) !! k) as ->.
      { unfold load_file.
        destruct (read_text fs (metrics_dir fs +:+ "/" +:+ kx +:+ ".js"));
          [|reflexivity].
        destruct (String.length content =? 0)%nat; [reflexivity|].
        rewrite Hkey. simpl. by rewrite lookup_insert_ne. }
      rewrite IH. tauto.
Qed.

(** The records of the loop: one per script taken, in listing order. *)
Lemma load_loop_trace (acc : gmap string string * list Event)
    (names : list string) :
  (forall name, In name names -> has_slash name = false) ->
  snd (foldl (load_file fs) acc
         ((fun name => metrics_dir fs +:+ "/" +:+ name)
            <$> List.filter glob_matches names))
  = snd acc ++ (loaded_record fs <$> List.filter (loadsb fs) names).
Proof.
  revert acc. induction names as [|x names IH]; intros acc Hplain.
  - simpl. by rewrite app_nil_r.
  - assert (forall name, In name names -> has_slash name = false) as Hrest
      by (intros name Hin; apply Hplain; by right).
    simpl. unfold loadsb at 1.
    destruct (glob_matches x) eqn:Hglob; simpl; [|by apply IH].
    rewrite IH by assumption. unfold load_file.
    destruct (read_text fs (metrics_dir fs +:+ "/" +:+ x)) as [content|];
      [|reflexivity].
    destruct (String.length content =? 0)%nat; simpl; [reflexivity|].
    rewrite basename_join by (apply Hplain; by left).
    rewrite <- app_assoc. reflexivity.
Qed.
End LoaderFrom.

(** X11.  On a mapping that already holds entries, the loader overrides.
    For a directory whose path holds no pattern character of [glob]:
    afterwards a key [k] is bound to the text of [k.js] when the loader
    takes that file, and keeps its earlier binding (or stays unbound) when
    the directory has no such file to take. *)
Theorem loader_overrides (fs : FileSystem) (self : WebPageTest)
    (k v : string) :
  isdir fs = true -> has_magic (metrics_dir fs) = false -> plain_names fs ->
  custom_metrics (fst (load_local_custom_metrics fs self)) !! k = Some v
  <-> loads fs (k +:+ ".js") v \/
      ((forall v', ~ loads fs (k +:+ ".js") v') /\
       custom_metrics self !! k = Some v).
Proof.
  intros Hdir Hmagic Hplain.
  unfold load_local_custom_metrics, glob_js, glob_in_dir, loads.
  rewrite Hdir, Hmagic. simpl. rewrite load_loop_lookup_from.
  - rewrite filter_In. split.
    + intros [((Hin & Hglob) & Hv & Hne)|[Hnot Hm]]; [left; auto|].
      right. split; [|exact Hm].
      intros v' (Hin & Hglob & Hv & Hne). apply Hnot. eauto.
    + intros [(Hin & Hglob & Hv & Hne)|[Hnot Hm]]; [left; auto|].
      right. split; [|exact Hm].
      intros ((Hin & Hglob) & v' & Hv & Hne). apply (Hnot v'). auto.
  - intros name [Hin Hglob]%filter_In. auto.
Qed.

Lemma loader_overrides_witness :
  custom_metrics (fst (load_local_custom_metrics sample_fs preloaded_self))
    !! "fonts" = Some "return 1;" /\
  custom_metrics (fst (load_local_custom_metrics sample_fs preloaded_self))
    !! "legacy" = Some "return 9;".
Proof.
  assert (plain_names sample_fs) as Hplain.
  { intros name Hin. simpl in Hin.
    repeat (destruct Hin as [<-|Hin]; [reflexivity|]). destruct Hin. }
  split.
  - apply (loader_overrides sample_fs preloaded_self "fonts" "return 1;"
             eq_refl eq_refl Hplain).
    left. unfold loads. simpl. repeat split; (auto || discriminate).
  - apply (loader_overrides sample_fs preloaded_self "legacy" "return 9;"
             eq_refl eq_refl Hplain).
    right. split; [|reflexivity].
    intros v' (Hin & _). simpl in Hin.
    repeat (destruct Hin as [[=]|Hin]). destruct Hin.
Defined.

Section LoadKey.
Variable fs : FileSystem.

(** The loop, one key at a time. *)
Lemma load_loop_key (paths : list string)
    (acc : gmap string string * list Event) (k : string) :
  fst (foldl (load_file fs) acc paths) !! k
  = foldl (load_key fs k) (fst acc !! k) paths.
Proof.
  revert acc. induction paths as [|file paths IH]; intros acc; [reflexivity|].
  simpl. rewrite IH. f_equal. unfold load_file, load_key.
  destruct (read_text fs file) as [content|]; [|reflexivity].
  destruct (String.length content =? 0)%nat; [reflexivity|]. simpl.
  destruct (decide (drop_last 3 (basename file) = k)) as [->|Hne].
  - by rewrite lookup_insert_eq.
  - by rewrite lookup_insert_ne.
Qed.

(** The loop sets a key to what its last script reads, or leaves it. *)
Lemma load_key_last (paths : list string) (k : string) (o : option string) :
  foldl (load_key fs k) o paths
  = match foldl (load_key fs k) None paths with
    | Some content => Some content
    | None => o
    end.
Proof.
  revert o. induction paths as [|file paths IH]; intros o; [reflexivity|].
  simpl. rewrite (IH (load_key fs k o file)), (IH (load_key fs k None file)).
  unfold load_key.
  destruct (read_text fs file) as [content|]; [|by destruct (foldl _ _ _)].
  destruct (String.length content =? 0)%nat; [by destruct (foldl _ _ _)|].
  destruct (decide (drop_last 3 (basename file) = k));
    by destruct (foldl _ _ _).
Qed.
End LoadKey.

(** X12.  Loading twice is loading once: a second run of the loader over
    the same directory leaves the object exactly as the first run left
    it. *)
Theorem loader_idempotent (fs : FileSystem) (self : WebPageTest) :
  plain_names fs ->
  fst (load_local_custom_metrics fs
         (fst (load_local_custom_metrics fs self)))
  = fst (load_local_custom_metrics fs self).
Proof.
  intros _. unfold load_local_custom_metrics.
  destruct (isdir fs); [|reflexivity]. simpl.
  unfold set_custom_metrics. simpl. f_equal.
  apply map_eq. intros k. rewrite !load_loop_key. simpl.
  rewrite (load_loop_key fs (glob_js fs) (custom_metrics self, []) k). simpl.
  rewrite (load_key_last fs (glob_js fs) k (foldl _ _ _)).
  rewrite (load_key_last fs (glob_js fs) k (custom_metrics self !! k)).
  by destruct (foldl (load_key fs k) None (glob_js fs)).
Qed.

Lemma loader_idempotent_witness :
  fst (load_local_custom_metrics sample_fs
         (fst (load_local_custom_metrics sample_fs preloaded_self)))
  = fst (load_local_custom_metrics sample_fs preloaded_self).
Proof.
  apply (loader_idempotent sample_fs preloaded_self).
  intros name Hin. simpl in Hin.
  repeat (destruct Hin as [<-|Hin]; [reflexivity|]). destruct Hin.
Defined.

(** X13.  For a directory whose path holds no pattern character of
    [glob], the loader logs one debug record per script it takes, in the
    order of the listing, naming the key and the path; it logs nothing
    for the files it skips and has no other effect. *)
Theorem loader_trace (fs : FileSystem) (self : WebPageTest) :
  isdir fs = true -> has_magic (metrics_dir fs) = false -> plain_names fs ->
  snd (load_local_custom_metrics fs self)
  = loaded_record fs <$> List.filter (loadsb fs) (listdir fs).
Proof.
  intros Hdir Hmagic Hplain.
  unfold load_local_custom_metrics, glob_js, glob_in_dir.
  rewrite Hdir, Hmagic. simpl. by rewrite load_loop_trace.
Qed.

Lemma loader_trace_witness :
  snd (load_local_custom_metrics sample_fs sample_self)
  = [loaded_record sample_fs "fonts.js"; loaded_record sample_fs "colors.js"].
Proof.
  rewrite (loader_trace sample_fs sample_self eq_refl eq_refl);
    [reflexivity|].
  intros name Hin. simpl in Hin.
  repeat (destruct Hin as [<-|Hin]; [reflexivity|]). destruct Hin.
Defined.

(** ** More on the constructor *)

Lemma split_comma_join (s : string) : join_comma (split_comma s) = s.
Proof.
  unfold join_comma, split_comma.
  induction s as [|c rest IH]; [reflexivity|]. simpl.
  pose proof (split_on_nonempty ","%char rest) as Hne.
  destruct (decide (c = ","%char)) as [->|_].
  - destruct (split_on ","%char rest) as [|piece pieces]; [done|].
    change (String.concat "," (EmptyString :: piece :: pieces))
      with ("" +:+ "," +:+ String.concat "," (piece :: pieces)).
    by rewrite IH.
  - destruct (split_on ","%char rest) as [|piece pieces]; [done|].
    rewrite <- IH. by destruct pieces.
Qed.

Lemma split_comma_pieces (s : string) :
  Forall (fun piece => has_comma piece = false) (split_comma s).
Proof.
  unfold split_comma.
  induction s as [|c rest IH]; [by repeat constructor|]. simpl.
  destruct (decide (c = ","%char)) as [->|Hc].
  - by constructor.
  - destruct (split_on ","%char rest) as [|piece pieces].
    + repeat constructor. simpl. by destruct (decide (c = ","%char)).
    + inversion IH as [|? ? Hpiece Hpieces]; subst.
      constructor; [|assumption].
      simpl. by destruct (decide (c = ","%char)).
Qed.

(** The first piece is the text before the first comma. *)
Lemma split_comma_first (s : string) :
  has_comma (first_of (split_comma s)) = false /\
  (s = first_of (split_comma s) \/
   exists rest, s = first_of (split_comma s) +:+ "," +:+ rest).
Proof.
  pose proof (split_comma_join s) as Hjoin.
  pose proof (split_comma_pieces s) as Hpieces.
  pose proof (split_on_nonempty ","%char s) as Hne.
  unfold split_comma in *.
  destruct (split_on ","%char s) as [|piece pieces]; [done|].
  inversion Hpieces as [|? ? Hpiece _]; subst. simpl.
  split; [assumption|]. unfold join_comma.
  destruct pieces as [|next pieces]; [by left|].
  right. by exists (String.concat "," (next :: pieces)).
Qed.

(** What the constructor leaves in the object. *)
Lemma init_fields (o : Options) (fs : FileSystem) :
  let self := fst (init o fs) in
  work_servers self
  = match opt_server o with
    | Some server =>
        split_comma (if String.eqb server "www.webpagetest.org"
                     then "http://www.webpagetest.org/" else server)
    | None => []
    end /\
  test_locations self = from_option split_comma [] (opt_location o) /\
  location self = first_of (test_locations self) /\
  scheduler_nodes self = from_option split_comma [] (opt_schedulernode o) /\
  options self = o /\
  first_failure self = None /\ is_rebooting self = false /\
  is_dead self = false.
Proof.
  unfold init, load_local_custom_metrics.
  destruct (isdir fs); simpl;
    match goal with |- context [if ?c then _ else _] => destruct c end;
    simpl; repeat split; by destruct (opt_location o).
Qed.

(** X14.  With [--server] given, the work servers of a new object are the
    comma-separated pieces of the option ([www.webpagetest.org] standing
    for its full URL): joined by commas they give the option back, no
    piece holds a comma, there is at least one piece (an empty option
    gives one empty server), and [url] is the text before the first
    comma. *)
Theorem init_work_servers (o : Options) (fs : FileSystem) (server : string) :
  opt_server o = Some server ->
  let self := fst (init o fs) in
  let target := if String.eqb server "www.webpagetest.org"
                then "http://www.webpagetest.org/" else server in
  join_comma (work_servers self) = target /\
  Forall (fun piece => has_comma piece = false) (work_servers self) /\
  work_servers self <> [] /\
  has_comma (url self) = false /\
  (target = url self \/ exists rest, target = url self +:+ "," +:+ rest).
Proof.
  intros Hserver self target.
  destruct (init_fields o fs) as (Hws & _).
  fold self in Hws. rewrite Hserver in Hws. fold target in Hws.
  pose proof (init_url o fs) as Hurl. fold self in Hurl.
  rewrite Hurl, Hws.
  split; [apply split_comma_join|].
  split; [apply split_comma_pieces|].
  split; [apply split_on_nonempty|].
  apply split_comma_first.
Qed.

Lemma init_work_servers_witness :
  join_comma (work_servers sample_self)
  = "http://wpt.example/work/,http://backup.example/work/" /\
  url sample_self = "http://wpt.example/work/" /\
  has_comma (url sample_self) = false.
Proof.
  destruct (init_work_servers sample_options empty_fs
              "http://wpt.example/work/,http://backup.example/work/" eq_refl)
    as (Hjoin & _ & _ & Hcomma & _).
  split; [exact Hjoin|]. split; [reflexivity|exact Hcomma].
Defined.

(** X15.  The test locations and the scheduler nodes of a new object are
    the comma-separated pieces of [--location] and [--schedulernode]:
    joined by commas they give the option back, a list is empty exactly
    when its option is missing, and [location] is the first test location,
    without a comma. *)
Theorem init_locations_and_nodes (o : Options) (fs : FileSystem) :
  let self := fst (init o fs) in
  join_comma (test_locations self) = from_option id EmptyString (opt_location o) /\
  (test_locations self = [] <-> opt_location o = None) /\
  location self = first_of (test_locations self) /\
  has_comma (location self) = false /\
  join_comma (scheduler_nodes self)
  = from_option id EmptyString (opt_schedulernode o) /\
  (scheduler_nodes self = [] <-> opt_schedulernode o = None) /\
  Forall (fun piece => has_comma piece = false) (scheduler_nodes self).
Proof.
  intros self.
  destruct (init_fields o fs) as (_ & Hloc & Hfirst & Hnodes & _).
  fold self in Hloc, Hfirst, Hnodes. rewrite Hfirst, Hloc, Hnodes.
  destruct (opt_location o) as [l|], (opt_schedulernode o) as [n|]; simpl;
    repeat split;
    try (apply split_comma_join || apply split_comma_pieces
         || apply split_comma_first || constructor);
    try discriminate;
    try (intros Hnil; by apply split_on_nonempty in Hnil).
Qed.

Lemma load_loop_debug (fs : FileSystem) (paths : list string)
    (acc : gmap string string * list Event) :
  Forall (fun e => exists msg, e = LogDebug msg) (snd acc) ->
  Forall (fun e => exists msg, e = LogDebug msg)
         (snd (foldl (load_file fs) acc paths)).
Proof.
  revert acc. induction paths as [|file paths IH]; intros acc Hacc;
    [exact Hacc|].
  simpl. apply IH. unfold load_file.
  destruct (read_text fs file) as [content|]; [|exact Hacc].
  destruct (String.length content =? 0)%nat; [exact Hacc|].
  simpl. apply Forall_app. split; [exact Hacc|].
  repeat constructor. eauto.
Qed.

Lemma loader_logs_debug (fs : FileSystem) (self : WebPageTest) :
  Forall (fun e => exists msg, e = LogDebug msg)
         (snd (load_local_custom_metrics fs self)).
Proof.
  unfold load_local_custom_metrics. destruct (isdir fs); [|constructor].
  simpl. apply load_loop_debug. constructor.
Qed.

Lemma init_warns (o : Options) (fs : FileSystem) :
  In (LogWarning no_server_warning) (snd (init o fs)) <->
  opt_server o = None /\ opt_schedulernode o = None /\ opt_pubsub o = false.
Proof.
  unfold init.
  match goal with
  | |- context [load_local_custom_metrics fs ?s] =>
      pose proof (load_local_custom_metrics_config fs s) as Hcfg;
      pose proof (loader_logs_debug fs s) as Hdebug;
      destruct (load_local_custom_metrics fs s) as [self1 loaded]
  end.
  simpl in Hcfg, Hdebug. destruct Hcfg as (_ & -> & -> & ->).
  assert (~ In (LogWarning no_server_warning) loaded) as Hloaded.
  { intros Hin. rewrite Forall_forall in Hdebug.
    apply list_elem_of_In, Hdebug in Hin as [msg [=]]. }
  destruct (opt_server o) as [server|].
  - pose proof (split_on_nonempty ","%char
                  (if String.eqb server "www.webpagetest.org"
                   then "http://www.webpagetest.org/" else server)) as Hne.
    unfold split_comma.
    destruct (split_on _ _); [done|]. simpl.
    split; [contradiction|intros [[=] _]].
  - destruct (opt_schedulernode o) as [nodes|].
    + pose proof (split_on_nonempty ","%char nodes) as Hne.
      unfold split_comma. destruct (split_on _ _); [done|]. simpl.
      split; [contradiction|intros (_ & [=] & _)].
    + simpl. destruct (opt_pubsub o); simpl.
      * split; [contradiction|intros (_ & _ & [=])].
      * split; [auto|]. intros _. apply in_app_iff. right. by left.
Qed.

(** X16.  The constructor logs its missing-server warning exactly when
    neither [--server] nor [--schedulernode] is given and push delivery is
    off; and those are exactly the new objects on which [get_test] returns
    [None] with the critical configuration error as its only effect. *)
Theorem init_warning_iff (o : Options) (fs : FileSystem) :
  (In (LogWarning no_server_warning) (snd (init o fs)) <->
   opt_server o = None /\ opt_schedulernode o = None /\
   opt_pubsub o = false) /\
  forall browsers w,
    get_test (fst (init o fs)) browsers w
    = Some (PyNone, fst (init o fs), [LogCritical no_endpoint_message])
    <-> In (LogWarning no_server_warning) (snd (init o fs)).
Proof.
  split; [apply init_warns|]. intros browsers w. rewrite init_warns.
  destruct (init_fields o fs) as (Hws & _ & _ & Hnodes & Hopt & _ & Hr & Hd).
  simpl in Hws, Hnodes, Hopt, Hr, Hd.
  split.
  - intros Hcall.
    destruct (get_test_cases (fst (init o fs)) browsers w)
      as [[Hg H]|[(_ & _ & Hp & Hw & Hn & H)|[Hpolls H]]].
    + rewrite H in Hcall. discriminate.
    + rewrite Hopt in Hp. rewrite Hw in Hws. rewrite Hn in Hnodes.
      split; [|split; [|exact Hp]].
      * destruct (opt_server o); [|reflexivity].
        symmetry in Hws. by apply split_on_nonempty in Hws.
      * destruct (opt_schedulernode o); [|reflexivity].
        symmetry in Hnodes. by apply split_on_nonempty in Hnodes.
    + rewrite H in Hcall. revert Hcall. one_pass.
      by_answer; intros [=].
  - intros (Hs & Hn & Hp).
    rewrite Hs in Hws. rewrite Hn in Hnodes. simpl in Hnodes.
    unfold get_test, run_get_test, get_test_fuel.
    rewrite Hr, Hd, Hopt, Hp, Hws, Hnodes. reflexivity.
Qed.

(** ** The failure handler, in order *)

Lemma app_empty_r (s : string) : s +:+ EmptyString = s.
Proof.
  induction s as [|c s IH]; [reflexivity|]. rewrite app_cons. by rewrite IH.
Qed.

(** X17.  When the attempt raises a request exception, a polling call
    returns [None] and its effects are, in this order: the info record,
    the GET, one critical record that names the URL and the exception
    (with the status code when the exception carries a response), one
    clock reading, a reboot request when the float difference of that
    reading and [first_failure] (of the reading and itself when
    [first_failure] was unset) exceeds 1800, and a sleep of a tenth of a
    second. *)
Theorem request_exception_trace (self : WebPageTest) (browsers : pyvalue)
    (w : World) (reason : string) (status : option Z) :
  polls self ->
  session_get w 1 (poll_url self) = Raises (RequestException reason status) ->
  exists self',
    get_test self browsers w
    = Some (PyNone, self',
            [LogInfo ("Checking for work: " +:+ poll_url self);
             HttpGet (poll_url self) 10 true;
             LogCritical ("Get Work Error connecting to " +:+ poll_url self
                          +:+ ": " +:+ reason
                          +:+ match status with
                              | Some code => " (Status: " +:+ pretty code +:+ ")"
                              | None => EmptyString
                              end);
             Monotonic]
            ++ (if exceeds (float_sub (monotonic w 1)
                              (from_option id (monotonic w 1)
                                 (first_failure self)))
                           reboot_threshold
                then [RebootRequest] else [])
            ++ [Sleep (1 # 10)]).
Proof.
  intros Hpolls Hget. rewrite (failed_call _ _ _ _ _ Hpolls Hget).
  unfold on_request_exception. simpl.
  assert (request_error_msg reason status
          = reason +:+ match status with
                       | Some code => " (Status: " +:+ pretty code +:+ ")"
                       | None => EmptyString
                       end) as ->.
  { destruct status; simpl; [reflexivity|]. by rewrite app_empty_r. }
  destruct (exceeds _ _); simpl; eauto.
Qed.

Lemma request_exception_trace_witness :
  exists self',
    get_test troubled_self PyNone (unavailable_at 1811)
    = Some (PyNone, self',
            [LogInfo ("Checking for work: " +:+ poll_url troubled_self);
             HttpGet (poll_url troubled_self) 10 true;
             LogCritical ("Get Work Error connecting to "
                          +:+ poll_url troubled_self
                          +:+ ": 503 Server Error (Status: 503)");
             Monotonic; RebootRequest; Sleep (1 # 10)]).
Proof.
  destruct (request_exception_trace troubled_self PyNone (unavailable_at 1811)
              "503 Server Error" (Some 503)) as [self' Hcall].
  - unfold polls. repeat split; try reflexivity. left. discriminate.
  - reflexivity.
  - exists self'. rewrite Hcall. reflexivity.
Defined.

(** ** The polled endpoint *)

(** What the constructor made of [--server] stays. *)
Lemma reachable_config (self : WebPageTest) :
  reachable self ->
  url self = first_of (work_servers self) /\
  work_servers self
  = match opt_server (options self) with
    | Some server =>
        split_comma (if String.eqb server "www.webpagetest.org"
                     then "http://www.webpagetest.org/" else server)
    | None => []
    end.
Proof.
  induction 1 as [o fs|self self' browsers w j tr _ IH Hcall].
  - split; [apply init_url|].
    destruct (init_fields o fs) as (Hws & _ & _ & _ & Hopt & _).
    simpl in Hws, Hopt. by rewrite Hopt.
  - destruct (get_test_config _ _ _ _ _ _ Hcall) as (-> & -> & _ & ->).
    exact IH.
Qed.

(** C10.  On an object built by the constructor and used through
    [get_test]: with [--server] given, the work servers are the
    comma-separated pieces of the option ([www.webpagetest.org] standing
    for its full URL) and [url] is the first of them; with no [--server],
    there is no work server and [url] is empty.  Every request of a call
    goes to [url] followed by the fixed query string, a polling call makes
    exactly that request, whatever scheduler nodes are configured, and
    the call leaves the endpoint, the server lists and the options as
    they were. *)
Theorem polled_endpoint (self self' : WebPageTest) (browsers j : pyvalue)
    (w : World) (tr : list Event) :
  reachable self ->
  get_test self browsers w = Some (j, self', tr) ->
  (forall server,
     opt_server (options self) = Some server ->
     exists rest,
       work_servers self = url self :: rest /\
       join_comma (url self :: rest)
       = (if String.eqb server "www.webpagetest.org"
          then "http://www.webpagetest.org/" else server) /\
       has_comma (url self) = false) /\
  (opt_server (options self) = None ->
   work_servers self = [] /\ url self = EmptyString) /\
  Forall (fun u => u = url self +:+ getwork_query) (requested_urls tr) /\
  (polls self -> requested_urls tr = [url self +:+ getwork_query]) /\
  url self' = url self /\ work_servers self' = work_servers self /\
  scheduler_nodes self' = scheduler_nodes self /\
  options self' = options self.
Proof.
  intros Hreach Hcall.
  destruct (reachable_config self Hreach) as [Hurl Hws].
  destruct (get_test_config _ _ _ _ _ _ Hcall) as (Hu & Hw & Hs & Ho).
  split; [|split].
  - intros server Hserver. rewrite Hserver in Hws.
    pose proof (split_comma_join
                  (if String.eqb server "www.webpagetest.org"
                   then "http://www.webpagetest.org/" else server)) as Hjoin.
    pose proof (split_comma_first
                  (if String.eqb server "www.webpagetest.org"
                   then "http://www.webpagetest.org/" else server))
      as [Hcomma _].
    rewrite <- Hws in Hjoin, Hcomma. rewrite <- Hurl in Hcomma.
    destruct (work_servers self) as [|first rest] eqn:Hlist.
    + symmetry in Hws. by apply split_on_nonempty in Hws.
    + simpl in Hurl. subst first. exists rest. auto.
  - intros Hnone. rewrite Hnone in Hws. rewrite Hurl, Hws. auto.
  - assert (Forall (fun u => u = url self +:+ getwork_query)
                   (requested_urls tr) /\
            (polls self -> requested_urls tr = [url self +:+ getwork_query]))
      as [Hall Hone].
    { destruct (get_test_cases self browsers w)
        as [[Hg H]|[(Hr & Hd & Hp & Hw0 & Hs0 & H)|[Hpolls H]]];
        rewrite H in Hcall; revert Hcall.
      - intros [= <- <- <-]. split; [constructor|].
        intros Hpolls. by apply polls_not_guarded in Hpolls.
      - intros [= <- <- <-]. split; [constructor|].
        intros (_ & _ & _ & [|]); congruence.
      - one_pass.
        by_answer; intros [= <- <- <-]; count_events;
          (split; [repeat constructor|reflexivity]). }
    auto 10.
Qed.

Lemma polled_endpoint_witness :
  reachable mixed_self /\
  scheduler_nodes mixed_self = ["node1"; "node2"] /\
  work_servers mixed_self
  = ["http://wpt.example/work/"; "http://backup.example/work/"] /\
  exists self' tr,
    get_test mixed_self PyNone busy_world = Some (PyDict [], self', tr) /\
    requested_urls tr
    = ["http://wpt.example/work/getwork.php?f=json&shards=1&reboot=1&servers=1&testinfo=1"].
Proof.
  assert (reachable mixed_self) as Hreach by apply reachable_init.
  split; [exact Hreach|]. split; [reflexivity|]. split; [reflexivity|].
  eexists _, _. split; [vm_compute; reflexivity|].
  destruct (polled_endpoint mixed_self _ PyNone (PyDict []) busy_world _
              Hreach ltac:(vm_compute; reflexivity))
    as (_ & _ & _ & Hone & _).
  rewrite Hone; [reflexivity|].
  unfold polls. repeat split; try reflexivity. left. discriminate.
Defined.

(** ** A directory path that is a pattern *)

(** Why the loader's properties ask for a path without pattern
    characters: in [/opt/agent[1]/custom/metrics] the brackets are a
    pattern for one character, so [glob] lists the scripts of
    [/opt/agent1/custom/metrics] and the loader takes those, not the
    scripts of the directory itself. *)
Lemma bracket_path_is_pattern :
  isdir bracket_fs = true /\ has_magic (metrics_dir bracket_fs) = true /\
  loads bracket_fs "fonts.js" "return 1;" /\
  custom_metrics (fst (load_local_custom_metrics bracket_fs sample_self))
    !! "fonts" = None /\
  custom_metrics (fst (load_local_custom_metrics bracket_fs sample_self))
    !! "other" = Some "return 7;".
Proof.
  split; [reflexivity|]. split; [reflexivity|].
  split; [unfold loads; simpl; repeat split; (auto || discriminate)|].
  split; reflexivity.
Qed.
